(** * Smart-system AI service: a shallow embedding of [ai-service/app.py]

    The service parses a JSON request, runs the sensor reading through the
    [AccidentDetector] (three fitted scikit-learn objects and a handful of
    threshold rules) and serialises a JSON answer.

    Conventions of the embedding.
    - A parsed JSON document is a value of [json]; a Python [dict] is an
      association list read with first-match lookup.
    - A JSON number is the rational [Q] it denotes, handled as a Python
      [float] of that value; there is no NaN and no infinity. Sums,
      products and square roots are the exact ones, without the rounding
      of the floats; the one float failure the code can meet, the
      [OverflowError] of [x ** 2], is modelled.
    - [np.sqrt(m) > t] for a constant [t >= 0] is decided on the squares,
      [t * t < m]; lemma [np_sqrt_gt_spec] relates the test to the real
      square root. A statement that places the norm itself above or below
      a threshold keeps a margin around it, so that it does not depend on
      the rounding.
    - A Python exception is a value of [exn]; code that may raise lives in
      the monad [M], which threads the detector (the object [self], or the
      module-level [detector]) and either an exception or a value.
    - The fitted scikit-learn objects are fields of the detector holding
      the functions they compute on one feature row. *)

From Stdlib Require Import QArith Qround Qminmax ZArith List String Ascii Bool Lia Lqa.
From Stdlib Require Import Reals Lra Qreals.
From Stdlib Require Import Permutation.
Import ListNotations.
Local Open Scope string_scope.
Local Open Scope Q_scope.

(** ** JSON values and the Python operations the service applies to them *)

#[local] Unset Elimination Schemes.
Inductive json : Type :=
| JNull
| JBool (b : bool)
| JNum (q : Q)
| JStr (s : string)
| JArr (l : list json)
| JObj (kv : list (string * json)).
#[local] Set Elimination Schemes.

(** Python exceptions, by class. [str_exn] stands for [str(e)]: only the
    class is kept, the interpreter's message text is not modelled. *)
Inductive exn : Type :=
| AttributeError
| TypeError
| ValueError
| IndexError
| ZeroDivisionError
| OverflowError
| BadRequest.

Definition str_exn (e : exn) : string :=
  match e with
  | AttributeError => "AttributeError"
  | TypeError => "TypeError"
  | ValueError => "ValueError"
  | IndexError => "IndexError"
  | ZeroDivisionError => "ZeroDivisionError"
  | OverflowError => "OverflowError"
  | BadRequest => "BadRequest"
  end.

Inductive result (A : Type) : Type :=
| Ok (a : A)
| Raise (e : exn).
Arguments Ok {A} a.
Arguments Raise {A} e.

Definition rbind {A B} (r : result A) (k : A -> result B) : result B :=
  match r with
  | Ok a => k a
  | Raise e => Raise e
  end.

Declare Scope result_scope.
Delimit Scope result_scope with result.
Notation "x <-- c ;; k" := (rbind c (fun x => k))
  (at level 61, c at next level, right associativity) : result_scope.

(** [d[k]] on an association list. *)
Fixpoint lookup (k : string) (kv : list (string * json)) : option json :=
  match kv with
  | [] => None
  | (k', v) :: rest => if String.eqb k k' then Some v else lookup k rest
  end.

(** [o.get(k, default)]: only a dict has the method. *)
Definition py_get (o : json) (k : string) (default : json) : result json :=
  match o with
  | JObj kv => Ok (match lookup k kv with Some v => v | None => default end)
  | _ => Raise AttributeError
  end.

(** [o.get(k)], with [None] for an absent key. *)
Definition py_get_none (o : json) (k : string) : result json :=
  py_get o k JNull.

(** The numeric reading of a value: [int], [float] and [bool] are the
    numeric types ([True] is 1 and [False] is 0). *)
Definition as_num (v : json) : option Q :=
  match v with
  | JNum q => Some q
  | JBool true => Some 1
  | JBool false => Some 0
  | _ => None
  end.

Definition Qltb (a b : Q) : bool :=
  if Qlt_le_dec a b then true else false.

(** [v > t] and [v < t] against a numeric constant: a [TypeError] for a
    value that is not a number. *)
Definition py_gt (v : json) (t : Q) : result bool :=
  match as_num v with
  | Some q => Ok (Qltb t q)
  | None => Raise TypeError
  end.

Definition py_lt (v : json) (t : Q) : result bool :=
  match as_num v with
  | Some q => Ok (Qltb q t)
  | None => Raise TypeError
  end.

(** The bound of the floats: a float of magnitude [2 ^ 512] or more has a
    square of [2 ^ 1024] or more, which no float holds. *)
Definition float_overflow : Q := inject_Z (2 ^ 1024).

(** [v ** 2]: a [TypeError] for a value that is not a number, and an
    [OverflowError] when the square is beyond the floats. The square that
    is returned is the exact one: the rounding of the float product is not
    modelled. A number that is itself beyond the floats is answered with
    the [OverflowError] as well, as Python does when it adds the square of
    such an integer to a float; that the parser reads a float literal of
    that size as infinity is not modelled. *)
Definition py_sq (v : json) : result Q :=
  match as_num v with
  | Some q =>
      if Qle_bool float_overflow (q * q) then Raise OverflowError
      else Ok (q * q)
  | None => Raise TypeError
  end.

(** [np.sqrt(m) > t], for a threshold [t >= 0], decided on the exact
    squares. The float square root and the float sum under it are rounded,
    so a magnitude within rounding distance of [t] can fall on the other
    side in the program: the statements below that place the norm above
    or below a threshold keep a margin around it. *)
Definition np_sqrt_gt (m t : Q) : bool := Qltb (t * t) m.

(** Truth value of an object, as [not v] and [if v] see it. *)
Definition py_truthy (v : json) : bool :=
  match v with
  | JNull => false
  | JBool b => b
  | JNum q => negb (Qeq_bool q 0)
  | JStr s => negb (String.eqb s "")
  | JArr l => match l with [] => false | _ => true end
  | JObj kv => match kv with [] => false | _ => true end
  end.

(** The last [n] elements of a list: the slice [l[-n:]]. *)
Definition last_n {A} (n : nat) (l : list A) : list A :=
  skipn (List.length l - n) l.

(** The elements iterated over by [for record in v[-100:]]: a list gives
    its last hundred items, a string its last hundred characters, anything
    else cannot be sliced. *)
Definition py_slice_last100 (v : json) : result (list json) :=
  match v with
  | JArr l => Ok (last_n 100 l)
  | JStr s => Ok (map (fun c => JStr (String c EmptyString))
                      (last_n 100 (list_ascii_of_string s)))
  | _ => Raise TypeError
  end.

(** [l[i]] on a Python list, negative indices counting from the end. *)
Definition py_index {A} (l : list A) (i : Z) : result A :=
  let n := Z.of_nat (List.length l) in
  let j := (if i <? 0 then i + n else i)%Z in
  if ((j <? 0) || (n <=? j))%Z then Raise IndexError
  else match nth_error l (Z.to_nat j) with
       | Some a => Ok a
       | None => Raise IndexError
       end.

(** [round(x, 1)]: to one decimal place, ties to the even digit. *)
Definition py_round1 (x : Q) : Q :=
  let y := x * 10 in
  let n := Qfloor y in
  let k := match (y - inject_Z n) ?= (1 # 2) with
           | Lt => n
           | Gt => (n + 1)%Z
           | Eq => if Z.even n then n else (n + 1)%Z
           end in
  inject_Z k / 10.

(** [list(set(l))]: the distinct elements. Python leaves the order of a
    set unspecified; the embedding keeps the order of [nodup]. *)
Definition py_list_set (l : list string) : list string :=
  nodup string_dec l.

Definition jstrs (l : list string) : json := JArr (map JStr l).

(** ** The detector object and the monad of the service *)

Module AccidentDetector.

(** A fitted [StandardScaler]: [transform] on one row. *)
Record StandardScaler : Type := { transform : list Q -> list Q }.

(** A fitted [RandomForestClassifier]: [predict_proba(row)[0][1]], the
    probability of class 1, and [predict(row)[0]], the predicted label. *)
Record RandomForestClassifier : Type :=
  { predict_proba : list Q -> Q;
    predict : list Q -> Z }.

(** A fitted [IsolationForest]: [score_samples(row)[0]] and
    [predict(row)[0]], which is -1 for an outlier and 1 for an inlier. *)
Record IsolationForest : Type :=
  { score_samples : list Q -> Q;
    outlier_predict : list Q -> Z }.

(** The attributes of [self]. *)
Record state : Type :=
  { scaler : StandardScaler;
    accident_model : RandomForestClassifier;
    anomaly_detector : IsolationForest;
    risk_model : RandomForestClassifier;
    is_trained : bool }.

(** A computation on the detector: it may read and replace the detector
    and ends with a value or with an exception. *)
Definition M (A : Type) : Type := state -> result A * state.

Definition ret {A} (a : A) : M A := fun d => (Ok a, d).

Definition raise {A} (e : exn) : M A := fun d => (Raise e, d).

Definition bind {A B} (c : M A) (k : A -> M B) : M B :=
  fun d => match c d with
           | (Ok a, d') => k a d'
           | (Raise e, d') => (Raise e, d')
           end.

(** A computation that cannot touch the detector. *)
Definition lift {A} (r : result A) : M A := fun d => (r, d).

(** Reading an attribute of the detector. *)
Definition self {A} (f : state -> A) : M A := fun d => (Ok (f d), d).

(** Assigning the detector's attributes. *)
Definition put (d' : state) : M unit := fun _ => (Ok tt, d').

(** [try: body except Exception as e: handler e]. *)
Definition try_except {A} (body : M A) (handler : exn -> M A) : M A :=
  fun d => match body d with
           | (Ok a, d') => (Ok a, d')
           | (Raise e, d') => handler e d'
           end.

Declare Scope M_scope.
Delimit Scope M_scope with M.
Notation "x <- c ;; k" := (bind c (fun x => k))
  (at level 61, c at next level, right associativity) : M_scope.
Notation "' pat <- c ;; k" := (bind c (fun x => match x with pat => k end))
  (at level 61, pat pattern, c at next level, right associativity) : M_scope.

Definition error_dict (e : exn) : json := JObj [("error", JStr (str_exn e))].

(** *** [_generate_risk_labels] *)

(** One row of the training frame [X]. *)
Record Row : Type :=
  { accel_x : Q; accel_y : Q; accel_z : Q;
    gyro_x : Q; gyro_y : Q; gyro_z : Q;
    speed : Q; heart_rate : Q; oxygen_level : Q }.

(** The body of the loop over the rows: the label appended for [row]
    (0 = low, 1 = medium, 2 = high). *)
Definition risk_label (row : Row) : Z :=
  let risk := 0%Z in
  let risk :=
    if Qltb 80 (speed row) then (risk + 2)%Z
    else if Qltb 60 (speed row) then (risk + 1)%Z
    else risk in
  let accel_sq :=
    accel_x row * accel_x row + accel_y row * accel_y row
    + accel_z row * accel_z row in
  let risk :=
    if np_sqrt_gt accel_sq 12 then (risk + 2)%Z
    else if np_sqrt_gt accel_sq 10 then (risk + 1)%Z
    else risk in
  let gyro_sq :=
    gyro_x row * gyro_x row + gyro_y row * gyro_y row
    + gyro_z row * gyro_z row in
  let risk :=
    if np_sqrt_gt gyro_sq 2 then (risk + 2)%Z
    else if np_sqrt_gt gyro_sq 1 then (risk + 1)%Z
    else risk in
  let risk :=
    if Qltb 100 (heart_rate row) || Qltb (oxygen_level row) 95
    then (risk + 1)%Z else risk in
  if (4 <=? risk)%Z then 2%Z
  else if (2 <=? risk)%Z then 1%Z
  else 0%Z.

Definition _generate_risk_labels (X : list Row) : list Z :=
  map risk_label X.

(** *** [detect_accident] *)

(** [sensor_data.get(k1, {}).get(k2, default)]. *)
Definition get2 (sensor_data : json) (k1 k2 : string) (default : json)
  : result json :=
  (inner <-- py_get sensor_data k1 (JObj []) ;;
   py_get inner k2 default)%result.

(** The list [features] built from the reading. *)
Definition extract_features (sensor_data : json) : result (list json) :=
  (ax <-- get2 sensor_data "accelerometer" "x" (JNum 0) ;;
   ay <-- get2 sensor_data "accelerometer" "y" (JNum 0) ;;
   az <-- get2 sensor_data "accelerometer" "z" (JNum (-9.8)) ;;
   gx <-- get2 sensor_data "gyroscope" "x" (JNum 0) ;;
   gy <-- get2 sensor_data "gyroscope" "y" (JNum 0) ;;
   gz <-- get2 sensor_data "gyroscope" "z" (JNum 0) ;;
   sp <-- py_get sensor_data "speed" (JNum 0) ;;
   hr <-- py_get sensor_data "heartRate" (JNum 75) ;;
   ox <-- py_get sensor_data "oxygenLevel" (JNum 98) ;;
   Ok [ax; ay; az; gx; gy; gz; sp; hr; ox])%result.

(** The conversion of [[features]] to a numeric array on entry to
    [scaler.transform], in outline: a number is taken as it is and
    anything else is answered with a [ValueError]. What the library does
    beyond that (a string that reads as a number, [None], a number beyond
    single precision) is not modelled, and no statement below says on
    which readings the conversion succeeds. *)
Fixpoint np_row (features : list json) : result (list Q) :=
  match features with
  | [] => Ok []
  | v :: rest =>
      match as_num v with
      | Some q => (qs <-- np_row rest ;; Ok (q :: qs))%result
      | None => Raise ValueError
      end
  end.

Definition detect_accident (sensor_data : json) : M json :=
  (trained <- self is_trained ;;
   if negb trained then ret (JObj [("error", JStr "Models not trained")])
   else
     try_except
       (features <- lift (extract_features sensor_data) ;;
        row <- lift (np_row features) ;;
        features_scaled <- self (fun d => transform (scaler d) row) ;;
        accident_prob <-
          self (fun d => predict_proba (accident_model d) features_scaled) ;;
        anomaly_score <-
          self (fun d => score_samples (anomaly_detector d) features_scaled) ;;
        outlier <-
          self (fun d => outlier_predict (anomaly_detector d) features_scaled) ;;
        let is_anomaly := (outlier =? -1)%Z in
        risk_level <-
          self (fun d => predict (risk_model d) features_scaled) ;;
        let accident_detected :=
          Qltb 0.7 accident_prob || (is_anomaly && Qltb 0.4 accident_prob) in
        level <- lift (py_index ["low"; "medium"; "high"] risk_level) ;;
        ret (JObj
               [("accident_detected", JBool accident_detected);
                ("accident_probability", JNum accident_prob);
                ("anomaly_score", JNum anomaly_score);
                ("risk_level", JStr level);
                ("confidence",
                 JNum (if accident_detected then accident_prob
                       else 1 - accident_prob))]))
       (fun e => ret (error_dict e)))%M.

(** *** [_get_safety_recommendations] *)

Definition recommendations_low : list string :=
  ["Continue maintaining safe driving habits";
   "Regular vehicle maintenance checks";
   "Stay alert and avoid distractions"].

Definition recommendations_medium : list string :=
  ["Reduce speed and maintain safe following distance";
   "Avoid aggressive acceleration and braking";
   "Take breaks during long drives";
   "Check tire pressure and brake condition"].

Definition recommendations_high : list string :=
  ["Immediately reduce driving speed";
   "Avoid driving during peak traffic hours";
   "Consider defensive driving course";
   "Have vehicle inspected by mechanic";
   "Take frequent breaks and stay hydrated";
   "Avoid night driving if possible"].

Definition _get_safety_recommendations (risk_level : string) : list string :=
  if String.eqb risk_level "low" then recommendations_low
  else if String.eqb risk_level "medium" then recommendations_medium
  else if String.eqb risk_level "high" then recommendations_high
  else recommendations_medium.

(** *** [assess_driving_risk] *)

(** The sum of the squares of the three coordinates of [vec], the
    argument of [np.sqrt]; [z_default] is the default of the [z] key. *)
Definition magnitude_sq (vec : json) (z_default : Q) : result Q :=
  (x <-- py_get vec "x" (JNum 0) ;;
   x2 <-- py_sq x ;;
   y <-- py_get vec "y" (JNum 0) ;;
   y2 <-- py_sq y ;;
   z <-- py_get vec "z" (JNum z_default) ;;
   z2 <-- py_sq z ;;
   Ok (x2 + y2 + z2))%result.

(** The body of the loop over the records, on the pair of the two
    accumulators [risk_factors] and [total_score]. *)
Definition record_step (record : json) (acc : list string * Z)
  : result (list string * Z) :=
  (let '(risk_factors, total_score) := acc in
   sensor_data <-- py_get record "sensorData" (JObj []) ;;
   speed <-- py_get sensor_data "speed" (JNum 0) ;;
   speeding <-- py_gt speed 100 ;;
   acc1 <-- (if speeding
             then Ok ((risk_factors ++ ["Excessive speeding detected"])%list,
                      (total_score + 10)%Z)
             else (fast <-- py_gt speed 80 ;;
                   Ok (risk_factors,
                       if fast then (total_score + 5)%Z else total_score))) ;;
   let '(risk_factors, total_score) := acc1 in
   accel <-- py_get sensor_data "accelerometer" (JObj []) ;;
   accel_sq <-- magnitude_sq accel (-9.8) ;;
   let '(risk_factors, total_score) :=
     if np_sqrt_gt accel_sq 15
     then ((risk_factors ++ ["Hard braking/acceleration detected"])%list,
           (total_score + 8)%Z)
     else if np_sqrt_gt accel_sq 12 then (risk_factors, (total_score + 4)%Z)
     else (risk_factors, total_score) in
   gyro <-- py_get sensor_data "gyroscope" (JObj []) ;;
   gyro_sq <-- magnitude_sq gyro 0 ;;
   Ok (if np_sqrt_gt gyro_sq 3
       then ((risk_factors ++ ["Sharp turns detected"])%list, (total_score + 6)%Z)
       else if np_sqrt_gt gyro_sq 2 then (risk_factors, (total_score + 3)%Z)
       else (risk_factors, total_score)))%result.

(** [for record in records: ...]. *)
Fixpoint for_records (records : list json) (acc : list string * Z)
  : result (list string * Z) :=
  match records with
  | [] => Ok acc
  | record :: rest =>
      (acc' <-- record_step record acc ;; for_records rest acc')%result
  end.

(** [min(100, max(0, 50 + (total_score / n * 10)))]. *)
Definition clamp_score (total_score : Z) (n : nat) : Q :=
  Qmin 100 (Qmax 0 (50 + inject_Z total_score / inject_Z (Z.of_nat n) * 10)).

Definition level_of_score (risk_score : Q) : string :=
  if Qltb 80 risk_score then "high"
  else if Qltb 60 risk_score then "medium"
  else "low".

Definition assess_driving_risk (driving_history : json) : M json :=
  (if negb (py_truthy driving_history)
   then ret (JObj [("risk_score", JNum 50); ("risk_level", JStr "medium")])
   else
     try_except
       (records <- lift (py_slice_last100 driving_history) ;;
        ' (risk_factors, total_score) <- lift (for_records records ([], 0%Z)) ;;
        window <- lift (py_slice_last100 driving_history) ;;
        let n := List.length window in
        if Nat.eqb n 0 then raise ZeroDivisionError
        else
          let risk_score := clamp_score total_score n in
          let risk_level := level_of_score risk_score in
          ret (JObj
                 [("risk_score", JNum (py_round1 risk_score));
                  ("risk_level", JStr risk_level);
                  ("risk_factors", jstrs (py_list_set risk_factors));
                  ("recommendations",
                   jstrs (_get_safety_recommendations risk_level))]))
       (fun e => ret (error_dict e)))%M.

End AccidentDetector.

Import AccidentDetector.

(** ** The request handlers *)

(** The part of a Flask request the handlers use: [request.get_json()],
    which raises when the body cannot be read as JSON. *)
Record Request : Type := { get_json : result json }.

(** A Flask response: the JSON body and the HTTP status. *)
Definition Response : Type := (json * Z)%type.

(** [jsonify(body)], returned alone, is a 200 response. *)
Definition jsonify (body : json) : Response := (body, 200%Z).

(** [jsonify({'error': str(e)}), 500]. *)
Definition error_response (e : exn) : Response := (error_dict e, 500%Z).

Definition health_check : M Response :=
  (trained <- self is_trained ;;
   ret (jsonify
          (JObj [("status", JStr "healthy");
                 ("service", JStr "AI Emergency Detection Service");
                 ("version", JStr "1.0.0");
                 ("models_trained", JBool trained)])))%M.

Definition analyze_emergency (request : Request) : M Response :=
  (try_except
    (data <- lift (get_json request) ;;
     sensor_data <- lift (py_get data "sensorData" (JObj [])) ;;
     emergency_type <- lift (py_get data "type" (JStr "unknown")) ;;
     location <- lift (py_get data "location" (JObj [])) ;;
     accident_analysis <- AccidentDetector.detect_accident sensor_data ;;
     detected <- lift (py_get_none accident_analysis "accident_detected") ;;
     let '(recommendations, risk_factors) :=
       if py_truthy detected
       then (["Immediate medical attention required";
              "Contact emergency services";
              "Do not move if spinal injury suspected"],
             ["High impact detected"])
       else ([], []) in
     heart_rate <- lift (py_get sensor_data "heartRate" (JNum 75)) ;;
     elevated <- lift (py_gt heart_rate 100) ;;
     let '(recommendations, risk_factors) :=
       if elevated
       then ((recommendations ++ ["Monitor vital signs"])%list,
             (risk_factors ++ ["Elevated heart rate"])%list)
       else (recommendations, risk_factors) in
     oxygen <- lift (py_get sensor_data "oxygenLevel" (JNum 98)) ;;
     low_oxygen <- lift (py_lt oxygen 95) ;;
     let '(recommendations, risk_factors) :=
       if low_oxygen
       then ((recommendations ++ ["Ensure clear airway"])%list,
             (risk_factors ++ ["Low oxygen saturation"])%list)
       else (recommendations, risk_factors) in
     probability <-
       lift (py_get accident_analysis "accident_probability" (JNum 0)) ;;
     confidence <- lift (py_get accident_analysis "confidence" (JNum 0.5)) ;;
     detected' <- lift (py_get_none accident_analysis "accident_detected") ;;
     ret (jsonify
            (JObj [("accidentProbability", probability);
                   ("riskFactors", jstrs risk_factors);
                   ("recommendedAction",
                    JStr match recommendations with
                         | first :: _ => first
                         | [] => "Monitor situation"
                         end);
                   ("confidence", confidence);
                   ("urgency",
                    JStr (if py_truthy detected' then "critical" else "medium"));
                   ("analysis", accident_analysis)])))
    (fun e => ret (error_response e)))%M.

Definition assess_driving_risk (request : Request) : M Response :=
  (try_except
    (data <- lift (get_json request) ;;
     driving_history <- lift (py_get data "drivingHistory" (JArr [])) ;;
     current_sensor_data <- lift (py_get data "currentSensorData" (JObj [])) ;;
     risk_assessment <- AccidentDetector.assess_driving_risk driving_history ;;
     current_analysis <- AccidentDetector.detect_accident current_sensor_data ;;
     risk_score <- lift (py_get risk_assessment "risk_score" (JNum 50)) ;;
     risk_level <- lift (py_get risk_assessment "risk_level" (JStr "medium")) ;;
     risk_factors <- lift (py_get risk_assessment "risk_factors" (JArr [])) ;;
     recommendations <-
       lift (py_get risk_assessment "recommendations" (JArr [])) ;;
     detected <-
       lift (py_get current_analysis "accident_detected" (JBool false)) ;;
     alert_level <-
       lift (py_get current_analysis "risk_level" (JStr "medium")) ;;
     ret (jsonify
            (JObj [("riskScore", risk_score);
                   ("riskLevel", risk_level);
                   ("riskFactors", risk_factors);
                   ("recommendations", recommendations);
                   ("currentDrivingStatus",
                    JObj [("safe", JBool (negb (py_truthy detected)));
                          ("alertLevel", alert_level)])])))
    (fun e => ret (error_response e)))%M.

Section PredictBehavior.

(** [f'{speed}']: the text Python prints for a number. *)
Variable py_format : json -> string.

Definition predict_behavior (request : Request) : M Response :=
  (try_except
    (data <- lift (get_json request) ;;
     sensor_data <- lift (py_get data "sensorData" (JObj [])) ;;
     analysis <- AccidentDetector.detect_accident sensor_data ;;
     speed <- lift (py_get sensor_data "speed" (JNum 0)) ;;
     speeding <- lift (py_gt speed 80) ;;
     let '(behaviors, alerts) :=
       if speeding
       then (["speeding"],
             ["Speed warning: " ++ py_format speed ++ " km/h detected"])
       else ([], []) in
     accel <- lift (py_get sensor_data "accelerometer" (JObj [])) ;;
     x <- lift (py_get accel "x" (JNum 0)) ;;
     x2 <- lift (py_sq x) ;;
     y <- lift (py_get accel "y" (JNum 0)) ;;
     y2 <- lift (py_sq y) ;;
     let accel_sq := x2 + y2 in
     let '(behaviors, alerts) :=
       if np_sqrt_gt accel_sq 8
       then ((behaviors ++ ["harsh_acceleration"])%list,
             (alerts ++ ["Harsh acceleration detected"])%list)
       else (behaviors, alerts) in
     gyro <- lift (py_get sensor_data "gyroscope" (JObj [])) ;;
     gyro_sq <- lift (magnitude_sq gyro 0) ;;
     let '(behaviors, alerts) :=
       if np_sqrt_gt gyro_sq 2
       then ((behaviors ++ ["sharp_turning"])%list,
             (alerts ++ ["Sharp turning detected"])%list)
       else (behaviors, alerts) in
     ret (jsonify
            (JObj [("riskyBehaviors", jstrs behaviors);
                   ("alerts", jstrs alerts);
                   ("safetyScore",
                    JNum (inject_Z
                            (Z.max 0 (100 - Z.of_nat (List.length behaviors) * 20))));
                   ("recommendations",
                    jstrs ["Maintain steady speed";
                           "Smooth acceleration and braking";
                           "Gentle steering inputs"])])))
    (fun e => ret (error_response e)))%M.

End PredictBehavior.

(** The routes registered on [app]. *)
Inductive Endpoint : Type :=
| GetHealth
| PostAnalyzeEmergency
| PostAssessRisk
| PostPredictBehavior.

Definition is_post (endpoint : Endpoint) : bool :=
  match endpoint with
  | GetHealth => false
  | _ => true
  end.

(** The view function Flask calls for a request to [endpoint]. *)
Definition dispatch (py_format : json -> string) (endpoint : Endpoint)
  (request : Request) : M Response :=
  match endpoint with
  | GetHealth => health_check
  | PostAnalyzeEmergency => analyze_emergency request
  | PostAssessRisk => assess_driving_risk request
  | PostPredictBehavior => predict_behavior py_format request
  end.


(** ** Vocabulary of the statements *)

(** The value stored under [k] in a returned dict. *)
Definition field (k : string) (r : json) : option json :=
  match r with
  | JObj kv => lookup k kv
  | _ => None
  end.

(** A successful result of a detector method carries no ["error"] key. *)
Definition successful (r : json) : bool :=
  match r with
  | JObj kv => match lookup "error" kv with None => true | Some _ => false end
  | _ => false
  end.

Definition is_num (v : json) : bool :=
  match as_num v with Some _ => true | None => false end.

(** The key [k] is absent from the dict, or its value satisfies [ok]. *)
Definition absent_or (ok : json -> bool) (k : string)
  (kv : list (string * json)) : bool :=
  match lookup k kv with
  | Some v => ok v
  | None => true
  end.

(** A three-axis reading whose coordinates, when given, are numbers. *)
Definition numeric_vector (v : json) : bool :=
  match v with
  | JObj kv =>
      absent_or is_num "x" kv && absent_or is_num "y" kv
      && absent_or is_num "z" kv
  | _ => false
  end.

(** A sensor reading whose motion fields, when given, are numeric. *)
Definition numeric_motion (v : json) : bool :=
  match v with
  | JObj kv =>
      absent_or is_num "speed" kv
      && absent_or numeric_vector "accelerometer" kv
      && absent_or numeric_vector "gyroscope" kv
  | _ => false
  end.

(** A record of the driving history with numeric sensor fields. *)
Definition numeric_record (v : json) : bool :=
  match v with
  | JObj kv => absent_or numeric_motion "sensorData" kv
  | _ => false
  end.

Definition sumZ (l : list Z) : Z := fold_right Z.add 0%Z l.

(** ** Sample inputs *)

(** A detector whose fitted objects are constant functions. *)
Definition sample_detector : state :=
  {| scaler := {| transform := fun row => row |};
     accident_model :=
       {| predict_proba := fun _ => 0.8; predict := fun _ => 0%Z |};
     anomaly_detector :=
       {| score_samples := fun _ => -0.5; outlier_predict := fun _ => 1%Z |};
     risk_model :=
       {| predict_proba := fun _ => 0; predict := fun _ => 2%Z |};
     is_trained := true |}.

(** The same detector after a training that failed. *)
Definition untrained_detector : state :=
  {| scaler := scaler sample_detector;
     accident_model := accident_model sample_detector;
     anomaly_detector := anomaly_detector sample_detector;
     risk_model := risk_model sample_detector;
     is_trained := false |}.

(** A record at 120 km/h with a 16 m/s^2 lateral acceleration. *)
Definition speeding_record : json :=
  JObj [("sensorData",
         JObj [("speed", JNum 120);
               ("accelerometer", JObj [("x", JNum 16)])])].

(** A record that reports no sensor data. *)
Definition quiet_record : json := JObj [].

Definition sample_history : list json :=
  [speeding_record; quiet_record; quiet_record].

(** A computation that hands back the detector it was given. *)
Definition read_only {A} (c : M A) : Prop :=
  forall d, snd (c d) = d.

(** Every response a handler computation returns has status 200. *)
Definition returns_200 (c : M Response) : Prop :=
  forall d response d', c d = (Ok response, d') -> snd response = 200%Z.

(** A request whose body parsed to [data]. *)
Definition json_request (data : json) : Request := {| get_json := Ok data |}.

(** A reading whose speed is a string. *)
Definition bad_speed_reading : json := JObj [("speed", JStr "fast")].

(** The Euclidean norm of the full accelerometer vector, in the spec's
    words: [sqrt(x^2 + y^2 + z^2)], as a real number. *)
Definition euclidean_norm (x y z : Q) : R :=
  sqrt (Q2R x * Q2R x + Q2R y * Q2R y + Q2R z * Q2R z).

(** The norm of the horizontal components, [sqrt(x^2 + y^2)]. *)
Definition horizontal_norm (x y : Q) : R :=
  sqrt (Q2R x * Q2R x + Q2R y * Q2R y).

(** A sensor reading that reports the accelerometer only. *)
Definition accel_reading (x y z : Q) : json :=
  JObj [("accelerometer", JObj [("x", JNum x); ("y", JNum y); ("z", JNum z)])].

Definition accel_record (x y z : Q) : json :=
  JObj [("sensorData", accel_reading x y z)].

(** A training row at rest, with the given acceleration and heart rate. *)
Definition accel_row (x y z heart : Q) : Row :=
  {| accel_x := x; accel_y := y; accel_z := z;
     gyro_x := 0; gyro_y := 0; gyro_z := 0;
     speed := 0; heart_rate := heart; oxygen_level := 98 |}.

(** *** Readings completed with the defaults *)

(** [d[k] = f(d.get(k))]: the dict with the value under [k] recomputed
    from the present one, if any. *)
Fixpoint update (k : string) (f : option json -> json)
  (kv : list (string * json)) : list (string * json) :=
  match kv with
  | [] => [(k, f None)]
  | (k', v) :: rest =>
      if String.eqb k k' then (k', f (Some v)) :: rest
      else (k', v) :: update k f rest
  end.

Definition or_default (default : json) (o : option json) : json :=
  match o with
  | Some v => v
  | None => default
  end.

(** A three-axis reading with every absent coordinate written out. *)
Definition vector_with_defaults (z_default : Q) (o : option json) : json :=
  match or_default (JObj []) o with
  | JObj kv =>
      JObj (update "x" (or_default (JNum 0))
              (update "y" (or_default (JNum 0))
                 (update "z" (or_default (JNum z_default)) kv)))
  | v => v
  end.

(** A sensor reading with every absent field written out: accelerometer
    (0, 0, -9.8), gyroscope (0, 0, 0), speed 0, heart rate 75 and oxygen
    level 98. *)
Definition with_defaults (sensor_data : json) : json :=
  match sensor_data with
  | JObj kv =>
      JObj (update "accelerometer" (vector_with_defaults (-9.8))
              (update "gyroscope" (vector_with_defaults 0)
                 (update "speed" (or_default (JNum 0))
                    (update "heartRate" (or_default (JNum 75))
                       (update "oxygenLevel" (or_default (JNum 98)) kv)))))
  | v => v
  end.

(** A dict with its ["sensorData"] completed: a request body, or a record
    of the driving history. *)
Definition sensor_data_with_defaults (data : json) : json :=
  match data with
  | JObj kv =>
      JObj (update "sensorData"
              (fun o => with_defaults (or_default (JObj []) o)) kv)
  | v => v
  end.

(** A row in city traffic with a raised heart rate. *)
Definition city_row : Row :=
  {| accel_x := 1; accel_y := 0; accel_z := -9.8;
     gyro_x := 0; gyro_y := 0; gyro_z := 0.5;
     speed := 50; heart_rate := 120; oxygen_level := 93 |}.

(** The same row on a motorway. *)
Definition motorway_row : Row :=
  {| accel_x := 1; accel_y := 0; accel_z := -9.8;
     gyro_x := 0; gyro_y := 0; gyro_z := 0.5;
     speed := 110; heart_rate := 120; oxygen_level := 93 |}.


(** The risk factors [assess_driving_risk] can report. *)
Definition known_risk_factors : list string :=
  ["Excessive speeding detected";
   "Hard braking/acceleration detected";
   "Sharp turns detected"].

(** A history whose last item is not a record. *)
Definition broken_history : list json :=
  [speeding_record; JStr "lost"].

(** A request body reporting 90 km/h in a hard lateral acceleration. *)
Definition hasty_body : json :=
  JObj [("sensorData",
         JObj [("speed", JNum 90);
               ("accelerometer", JObj [("x", JNum 9); ("y", JNum 2)])])].

(** A request body with a raised heart rate and nothing else. *)
Definition anxious_body : json :=
  JObj [("sensorData", JObj [("heartRate", JNum 130)])].

(** A request body whose driving history cannot be assessed. *)
Definition unreadable_history_body : json :=
  JObj [("drivingHistory", JArr [JNum 3])].

(** The sample history with its records in another order. *)
Definition shuffled_history : list json :=
  [quiet_record; speeding_record; quiet_record].

(** A request body whose current reading cannot be analysed. *)
Definition bad_current_body : json :=
  JObj [("currentSensorData", bad_speed_reading)].

(** *** Readings within range *)

(** The magnitude up to which a coordinate is taken to be in range: the
    squares of such coordinates, and their sums, stay far below the bound
    of the floats (and below 2 ^ 63 when the coordinates are integers). *)
Definition coordinate_bound : Q := 1000000000.

(** A number of magnitude at most [coordinate_bound]. *)
Definition is_small (v : json) : bool :=
  match as_num v with
  | Some q => Qle_bool (- coordinate_bound) q && Qle_bool q coordinate_bound
  | None => false
  end.

(** A three-axis reading whose coordinates, when given, are numbers in
    range. *)
Definition bounded_vector (v : json) : bool :=
  match v with
  | JObj kv =>
      absent_or is_small "x" kv && absent_or is_small "y" kv
      && absent_or is_small "z" kv
  | _ => false
  end.

(** A sensor reading whose speed, when given, is a number, and whose
    accelerometer and gyroscope, when given, are in range. *)
Definition bounded_motion (v : json) : bool :=
  match v with
  | JObj kv =>
      absent_or is_num "speed" kv
      && absent_or bounded_vector "accelerometer" kv
      && absent_or bounded_vector "gyroscope" kv
  | _ => false
  end.

(** A record of the driving history with numeric sensor fields in
    range. *)
Definition bounded_record (v : json) : bool :=
  match v with
  | JObj kv => absent_or bounded_motion "sensorData" kv
  | _ => false
  end.

(** A record whose lateral acceleration is the float 1e200. *)
Definition overflow_record : json :=
  JObj [("sensorData",
         JObj [("accelerometer", JObj [("x", JNum (inject_Z (10 ^ 200)))])])].

(** A record whose rotation about the vertical axis is the float
    -1e200. *)
Definition spinning_record : json :=
  JObj [("sensorData",
         JObj [("speed", JNum 40);
               ("gyroscope", JObj [("z", JNum (inject_Z (- 10 ^ 200)))])])].

(** *** Readings of the wrong shape *)

Definition is_object (v : json) : bool :=
  match v with
  | JObj _ => true
  | _ => false
  end.

(** A reading that is a JSON object whose accelerometer and gyroscope,
    when given, are JSON objects. *)
Definition well_shaped_reading (v : json) : bool :=
  match v with
  | JObj kv =>
      absent_or is_object "accelerometer" kv
      && absent_or is_object "gyroscope" kv
  | _ => false
  end.

(** A reading whose accelerometer is a single number. *)
Definition flat_reading : json :=
  JObj [("speed", JNum 30); ("accelerometer", JNum 3)].
(** * Properties *)

(** ** Arithmetic of the scoring layer *)

Lemma Qltb_true (a b : Q) : Qltb a b = true <-> a < b.
Proof.
  unfold Qltb. destruct (Qlt_le_dec a b) as [H | H]; split; intro H'.
  - exact H.
  - reflexivity.
  - discriminate.
  - exfalso. apply (Qlt_not_le _ _ H'). exact H.
Qed.

Lemma Qltb_false (a b : Q) : Qltb a b = false <-> b <= a.
Proof.
  unfold Qltb. destruct (Qlt_le_dec a b) as [H | H]; split; intro H'.
  - discriminate.
  - exfalso. apply (Qlt_not_le _ _ H). exact H'.
  - exact H.
  - reflexivity.
Qed.

(** [np.sqrt(m) > t] is the comparison of the real square root of [m]
    with [t], as long as the threshold is not negative. *)
Lemma np_sqrt_gt_spec (m t : Q) :
  0 <= t -> (np_sqrt_gt m t = true <-> (Q2R t < sqrt (Q2R m))%R).
Proof.
  intro Ht. unfold np_sqrt_gt. rewrite Qltb_true.
  assert (Ht' : (0 <= Q2R t)%R).
  { replace 0%R with (Q2R 0) by (unfold Q2R; simpl; lra).
    apply Qle_Rle. exact Ht. }
  split; intro H.
  - apply Qlt_Rlt in H. rewrite Q2R_mult in H.
    rewrite <- (sqrt_square (Q2R t) Ht').
    apply sqrt_lt_1_alt. split; [nra | exact H].
  - apply Rlt_Qlt. rewrite Q2R_mult.
    destruct (Rle_or_lt (Q2R m) 0) as [Hm | Hm].
    + rewrite (sqrt_neg_0 _ Hm) in H. lra.
    + rewrite <- (sqrt_sqrt (Q2R m)) by lra.
      assert (0 <= sqrt (Q2R m))%R by apply sqrt_pos. nra.
Qed.

(** Rounding to one decimal never crosses a value with one decimal. *)
Lemma py_round1_lower (x : Q) (k : Z) :
  inject_Z k <= x * 10 -> inject_Z k / 10 <= py_round1 x.
Proof.
  intro H. unfold py_round1.
  set (y := x * 10) in *. set (n := Qfloor y).
  assert (Hkn : (k <= n)%Z).
  { pose proof (Qlt_floor y) as Hf. fold n in Hf.
    assert (Hlt : inject_Z k < inject_Z (n + 1)) by (eapply Qle_lt_trans; eauto).
    rewrite <- Zlt_Qlt in Hlt. lia. }
  assert (Hres : forall k', (k <= k')%Z -> inject_Z k / 10 <= inject_Z k' / 10).
  { intros k' Hk. apply Qmult_le_compat_r.
    - rewrite <- Zle_Qle. exact Hk.
    - discriminate. }
  destruct (y - inject_Z n ?= 1 # 2); [destruct (Z.even n) | |];
    apply Hres; lia.
Qed.

Lemma py_round1_upper (x : Q) (k : Z) :
  x * 10 <= inject_Z k -> py_round1 x <= inject_Z k / 10.
Proof.
  intro H. unfold py_round1.
  set (y := x * 10) in *. set (n := Qfloor y).
  pose proof (Qfloor_le y) as Hf. fold n in Hf.
  assert (Hnk : (n <= k)%Z).
  { rewrite Zle_Qle. eapply Qle_trans; eauto. }
  assert (Hres : forall k', (k' <= k)%Z -> inject_Z k' / 10 <= inject_Z k / 10).
  { intros k' Hk. apply Qmult_le_compat_r.
    - rewrite <- Zle_Qle. exact Hk.
    - discriminate. }
  destruct (Z.eq_dec n k) as [Heq | Hne].
  - assert (Hlt : y - inject_Z n < 1 # 2).
    { rewrite Heq. apply Qle_lt_trans with 0; [| reflexivity].
      apply (Qplus_le_l _ _ (inject_Z k)). ring_simplify. exact H. }
    rewrite Qlt_alt in Hlt. rewrite Hlt, Heq. apply Qle_refl.
  - destruct (y - inject_Z n ?= 1 # 2); [destruct (Z.even n) | |];
      apply Hres; lia.
Qed.

Lemma clamp_score_range (total_score : Z) (n : nat) :
  0 <= clamp_score total_score n <= 100.
Proof.
  unfold clamp_score. split.
  - apply Q.min_glb; [discriminate | apply Q.le_max_l].
  - apply Q.le_min_l.
Qed.

Lemma clamp_score_baseline (total_score : Z) (n : nat) :
  (0 <= total_score)%Z -> 50 <= clamp_score total_score n.
Proof.
  intro Ht. unfold clamp_score.
  apply Q.min_glb; [discriminate |].
  eapply Qle_trans; [| apply Q.le_max_r].
  rewrite <- (Qplus_0_r 50) at 1. apply Qplus_le_r.
  apply Qmult_le_0_compat; [| discriminate].
  apply Qmult_le_0_compat.
  - change 0 with (inject_Z 0). rewrite <- Zle_Qle. exact Ht.
  - apply Qinv_le_0_compat.
    change 0 with (inject_Z 0). rewrite <- Zle_Qle. lia.
Qed.

(** ** The loop of [assess_driving_risk] *)


Lemma py_get_absent_or (ok : json -> bool) (k : string) (default : json)
  (kv : list (string * json)) :
  absent_or ok k kv = true -> ok default = true ->
  exists v, py_get (JObj kv) k default = Ok v /\ ok v = true.
Proof.
  unfold absent_or, py_get. intros H Hd.
  destruct (lookup k kv) as [v |]; eexists; split; eauto.
Qed.

Ltac step_result H :=
  match type of H with
  | rbind (if ?b then _ else _) _ = _ => destruct b; cbn [rbind] in H
  | rbind (rbind ?c _) _ = _ =>
      let E := fresh "E" in
      destruct c eqn:E; cbn [rbind] in H; [| discriminate H]
  | rbind ?c _ = _ =>
      let E := fresh "E" in
      destruct c eqn:E; cbn [rbind] in H; [| discriminate H]
  end.

(** A step of the loop that does not raise appends known risk factors
    and adds a penalty between 0 and 24. *)
Lemma record_step_appends (record : json) (risk_factors : list string)
  (total_score : Z) (risk_factors' : list string) (total_score' : Z) :
  record_step record (risk_factors, total_score)
  = Ok (risk_factors', total_score') ->
  exists extras,
    risk_factors' = (risk_factors ++ extras)%list
    /\ incl extras known_risk_factors
    /\ (total_score <= total_score' <= total_score + 24)%Z.
Proof.
  intro H. unfold record_step in H.
  repeat first
    [ step_result H
    | match type of H with
      | context [if ?b then _ else _] => destruct b; cbv beta iota in H
      end ].
  all: injection H as <- <-.
  all: rewrite <- ?app_assoc;
    first [ eexists; split; [reflexivity |]
          | exists []; split; [symmetry; apply app_nil_r |] ].
  all: split; [| lia].
  all: unfold known_risk_factors; intros f Hf; simpl in Hf |- *; intuition.
Qed.

Lemma for_records_appends (records : list json) :
  forall (risk_factors : list string) (total_score : Z)
         (risk_factors' : list string) (total_score' : Z),
  for_records records (risk_factors, total_score)
  = Ok (risk_factors', total_score') ->
  exists extras,
    risk_factors' = (risk_factors ++ extras)%list
    /\ incl extras known_risk_factors
    /\ (total_score <= total_score'
        <= total_score + 24 * Z.of_nat (List.length records))%Z.
Proof.
  induction records as [| record rest IH];
    intros rf t rf' t' H; cbn [for_records] in H.
  - injection H as <- <-. exists []. rewrite app_nil_r.
    split; [reflexivity |]. split; [intros f [] | simpl; lia].
  - destruct (record_step record (rf, t)) as [[rf1 t1] | e] eqn:Hstep;
      cbn [rbind] in H; [| discriminate H].
    apply record_step_appends in Hstep as (ex1 & -> & Hin1 & Hb1).
    apply IH in H as (ex2 & -> & Hin2 & Hb2).
    exists (ex1 ++ ex2)%list. rewrite app_assoc.
    split; [reflexivity |]. split; [apply incl_app; assumption |].
    cbn [List.length]. lia.
Qed.

(** The loop that does not raise adds one penalty per record. *)
Lemma for_records_penalties (records : list json) :
  forall (risk_factors : list string) (total_score : Z)
         (risk_factors' : list string) (total_score' : Z),
  for_records records (risk_factors, total_score)
  = Ok (risk_factors', total_score') ->
  exists penalties,
    total_score' = (total_score + sumZ penalties)%Z
    /\ List.length penalties = List.length records
    /\ Forall (fun p => 0 <= p <= 24)%Z penalties.
Proof.
  induction records as [| record rest IH];
    intros rf t rf' t' H; cbn [for_records] in H.
  - injection H as <- <-. exists []. simpl. split; [lia |]. auto.
  - destruct (record_step record (rf, t)) as [[rf1 t1] | e] eqn:Hstep;
      cbn [rbind] in H; [| discriminate H].
    apply record_step_appends in Hstep as (_ & _ & _ & Hb).
    apply IH in H as (ps & -> & Hlen & Hall).
    exists ((t1 - t)%Z :: ps). split; [| split].
    + change (sumZ ((t1 - t)%Z :: ps)) with ((t1 - t) + sumZ ps)%Z. lia.
    + cbn [List.length]. congruence.
    + constructor; [lia | exact Hall].
Qed.

(** The square of a number in range does not overflow. *)
Lemma py_sq_small (v : json) :
  is_small v = true -> exists m, py_sq v = Ok m.
Proof.
  unfold is_small, py_sq. destruct (as_num v) as [q |]; [| discriminate].
  intro H. apply andb_prop in H as [Hlo Hhi].
  apply Qle_bool_iff in Hlo, Hhi.
  destruct (Qle_bool float_overflow (q * q)) eqn:E;
    [| eexists; reflexivity].
  exfalso. apply Qle_bool_iff in E.
  assert (HF : coordinate_bound * coordinate_bound < float_overflow)
    by (vm_compute; reflexivity).
  revert Hlo Hhi E HF. generalize float_overflow. unfold coordinate_bound.
  intros F Hlo Hhi E HF. Lqa.nra.
Qed.

Lemma magnitude_sq_bounded (v : json) (z_default : Q) :
  bounded_vector v = true ->
  is_small (JNum z_default) = true ->
  exists m, magnitude_sq v z_default = Ok m.
Proof.
  destruct v as [| | | | | kv]; try discriminate.
  unfold bounded_vector. intros H Hz.
  apply andb_prop in H as [H Hkz]. apply andb_prop in H as [Hkx Hky].
  destruct (py_get_absent_or is_small "x" (JNum 0) kv Hkx eq_refl)
    as (x & Hx & Hxs).
  destruct (py_get_absent_or is_small "y" (JNum 0) kv Hky eq_refl)
    as (y & Hy & Hys).
  destruct (py_get_absent_or is_small "z" (JNum z_default) kv Hkz Hz)
    as (z & Hzv & Hzs).
  destruct (py_sq_small x Hxs) as (x2 & Hx2).
  destruct (py_sq_small y Hys) as (y2 & Hy2).
  destruct (py_sq_small z Hzs) as (z2 & Hz2).
  unfold magnitude_sq.
  rewrite Hx; cbn [rbind]; rewrite Hx2; cbn [rbind].
  rewrite Hy; cbn [rbind]; rewrite Hy2; cbn [rbind].
  rewrite Hzv; cbn [rbind]; rewrite Hz2; cbn [rbind].
  eexists. reflexivity.
Qed.

(** A record in range raises nothing. *)
Lemma record_step_bounded (record : json) (acc : list string * Z) :
  bounded_record record = true ->
  exists acc', record_step record acc = Ok acc'.
Proof.
  destruct record as [| | | | | kv]; try discriminate.
  destruct acc as [risk_factors total_score].
  unfold bounded_record. intro H.
  destruct (py_get_absent_or bounded_motion "sensorData" (JObj []) kv H eq_refl)
    as (sd & Hsd & Hsdok).
  unfold record_step. rewrite Hsd. cbn [rbind].
  destruct sd as [| | | | | skv]; try discriminate.
  unfold bounded_motion in Hsdok.
  apply andb_prop in Hsdok as [Hs Hg]. apply andb_prop in Hs as [Hs Ha].
  destruct (py_get_absent_or is_num "speed" (JNum 0) skv Hs eq_refl)
    as (sp & Hsp & Hspok).
  destruct (py_get_absent_or bounded_vector "accelerometer" (JObj []) skv Ha
              eq_refl) as (ac & Hac & Hacok).
  destruct (py_get_absent_or bounded_vector "gyroscope" (JObj []) skv Hg
              eq_refl) as (gy & Hgy & Hgyok).
  destruct (magnitude_sq_bounded ac (-9.8) Hacok eq_refl) as (am & Ham).
  destruct (magnitude_sq_bounded gy 0 Hgyok eq_refl) as (gm & Hgm).
  rewrite Hsp. cbn [rbind]. unfold py_gt.
  unfold is_num in Hspok. destruct (as_num sp) as [q |]; [| discriminate].
  cbn [rbind].
  destruct (Qltb 100 q); [| destruct (Qltb 80 q)]; cbn [rbind];
    rewrite Hac; cbn [rbind]; rewrite Ham; cbn [rbind];
    (destruct (np_sqrt_gt am 15); [| destruct (np_sqrt_gt am 12)]);
    rewrite Hgy; cbn [rbind]; rewrite Hgm; cbn [rbind];
    eexists; reflexivity.
Qed.

Lemma for_records_bounded (records : list json) :
  forallb bounded_record records = true ->
  forall acc, exists acc', for_records records acc = Ok acc'.
Proof.
  induction records as [| record rest IH]; intros Hb acc.
  - exists acc. reflexivity.
  - cbn [forallb] in Hb. apply andb_prop in Hb as [Hr Hrest].
    destruct (record_step_bounded record acc Hr) as (acc1 & Hstep).
    cbn [for_records]. rewrite Hstep. cbn [rbind]. apply IH. exact Hrest.
Qed.

(** A record in range is a record with numeric sensor fields. *)
Lemma bounded_record_numeric (record : json) :
  bounded_record record = true -> numeric_record record = true.
Proof.
  assert (Hnum : forall v, is_small v = true -> is_num v = true).
  { intros v. unfold is_small, is_num.
    destruct (as_num v); [reflexivity | discriminate]. }
  assert (Habs : forall (f g : json -> bool) k kv,
             (forall v, f v = true -> g v = true) ->
             absent_or f k kv = true -> absent_or g k kv = true).
  { intros f g k kv Hfg. unfold absent_or.
    destruct (lookup k kv); auto. }
  assert (Hvec : forall v, bounded_vector v = true -> numeric_vector v = true).
  { intros [| | | | | kv]; try discriminate.
    unfold bounded_vector, numeric_vector. intro H.
    apply andb_prop in H as [H Hz]. apply andb_prop in H as [Hx Hy].
    rewrite (Habs _ _ _ _ Hnum Hx), (Habs _ _ _ _ Hnum Hy),
      (Habs _ _ _ _ Hnum Hz). reflexivity. }
  assert (Hmot : forall v, bounded_motion v = true -> numeric_motion v = true).
  { intros [| | | | | kv]; try discriminate.
    unfold bounded_motion, numeric_motion. intro H.
    apply andb_prop in H as [H Hg]. apply andb_prop in H as [Hs Ha].
    rewrite Hs, (Habs _ _ _ _ Hvec Ha), (Habs _ _ _ _ Hvec Hg).
    reflexivity. }
  destruct record as [| | | | | kv]; try discriminate.
  unfold bounded_record, numeric_record. apply Habs. exact Hmot.
Qed.

Lemma sumZ_nonneg (l : list Z) :
  Forall (fun p => 0 <= p <= 24)%Z l -> (0 <= sumZ l)%Z.
Proof.
  induction 1 as [| p l Hp _ IH]; simpl; lia.
Qed.

Lemma last_n_forallb {A} (f : A -> bool) (n : nat) (l : list A) :
  forallb f l = true -> forallb f (last_n n l) = true.
Proof.
  unfold last_n. rewrite !forallb_forall. intros H x Hx.
  apply H. rewrite <- (firstn_skipn (List.length l - n) l).
  apply in_or_app. right. exact Hx.
Qed.

Lemma last_n_length {A} (n : nat) (l : list A) :
  List.length (last_n n l) = Nat.min n (List.length l).
Proof.
  unfold last_n. rewrite length_skipn. lia.
Qed.

Lemma last_n_idempotent {A} (n : nat) (l : list A) :
  last_n n (last_n n l) = last_n n l.
Proof.
  unfold last_n at 1. rewrite last_n_length.
  replace (Nat.min n (List.length l) - n)%nat with 0%nat by lia.
  reflexivity.
Qed.

Lemma level_of_score_low (risk_score : Q) :
  level_of_score risk_score = "low" -> risk_score <= 60.
Proof.
  unfold level_of_score.
  destruct (Qltb 80 risk_score); [discriminate |].
  destruct (Qltb 60 risk_score) eqn:E; [discriminate |].
  intros _. apply Qltb_false. exact E.
Qed.

Lemma level_of_score_medium (risk_score : Q) :
  level_of_score risk_score = "medium" -> 60 < risk_score.
Proof.
  unfold level_of_score.
  destruct (Qltb 80 risk_score); [discriminate |].
  destruct (Qltb 60 risk_score) eqn:E; [| discriminate].
  intros _. apply Qltb_true. exact E.
Qed.

Lemma level_of_score_enum (risk_score : Q) :
  In (level_of_score risk_score) ["low"; "medium"; "high"].
Proof.
  unfold level_of_score.
  destruct (Qltb 80 risk_score); [| destruct (Qltb 60 risk_score)];
    simpl; auto.
Qed.

(** ** The two branches of [assess_driving_risk] *)

Lemma assess_falsy (d : state) (history : json) :
  py_truthy history = false ->
  AccidentDetector.assess_driving_risk history d
  = (Ok (JObj [("risk_score", JNum 50); ("risk_level", JStr "medium")]), d).
Proof.
  intro H. unfold AccidentDetector.assess_driving_risk. rewrite H. reflexivity.
Qed.

(** Past the guard the method returns either an error dict or the
    four-field dict, and the detector is the one it started with. *)
Lemma assess_truthy (d : state) (history : json) :
  py_truthy history = true ->
  (exists e,
      AccidentDetector.assess_driving_risk history d = (Ok (error_dict e), d))
  \/ (exists risk_factors total_score n,
         let risk_score := clamp_score total_score n in
         AccidentDetector.assess_driving_risk history d
         = (Ok (JObj
                  [("risk_score", JNum (py_round1 risk_score));
                   ("risk_level", JStr (level_of_score risk_score));
                   ("risk_factors", jstrs (py_list_set risk_factors));
                   ("recommendations",
                    jstrs (_get_safety_recommendations
                             (level_of_score risk_score)))]), d)).
Proof.
  intro H. unfold AccidentDetector.assess_driving_risk. rewrite H.
  cbn [negb]. unfold try_except, bind, lift, ret, raise.
  destruct (py_slice_last100 history) as [records | e];
    [| left; exists e; reflexivity].
  destruct (for_records records ([], 0%Z)) as [[rf total] | e];
    [| left; exists e; reflexivity].
  destruct (List.length records =? 0)%nat.
  - left. exists ZeroDivisionError. reflexivity.
  - right. exists rf, total, (List.length records). reflexivity.
Qed.

(** The successful results past the guard. *)
Lemma assess_success (d : state) (history : json) (r : json) :
  py_truthy history = true ->
  fst (AccidentDetector.assess_driving_risk history d) = Ok r ->
  successful r = true ->
  exists records risk_factors total_score,
    py_slice_last100 history = Ok records
    /\ for_records records ([], 0%Z) = Ok (risk_factors, total_score)
    /\ records <> []
    /\ let risk_score := clamp_score total_score (List.length records) in
       r = JObj
             [("risk_score", JNum (py_round1 risk_score));
              ("risk_level", JStr (level_of_score risk_score));
              ("risk_factors", jstrs (py_list_set risk_factors));
              ("recommendations",
               jstrs (_get_safety_recommendations
                        (level_of_score risk_score)))].
Proof.
  intros Ht Hr Hs. unfold AccidentDetector.assess_driving_risk in Hr.
  rewrite Ht in Hr. cbn [negb] in Hr.
  unfold try_except, bind, lift, ret, raise in Hr.
  destruct (py_slice_last100 history) as [records | e];
    [| cbn [fst] in Hr; injection Hr as <-; discriminate Hs].
  destruct (for_records records ([], 0%Z)) as [[rf total] | e] eqn:Hloop;
    [| cbn [fst] in Hr; injection Hr as <-; discriminate Hs].
  destruct (Nat.eqb_spec (List.length records) 0) as [Hz | Hnz];
    cbn [fst] in Hr; injection Hr as <-; [discriminate Hs |].
  exists records, rf, total.
  split; [reflexivity |]. split; [exact Hloop |].
  split; [| reflexivity].
  intros ->. apply Hnz. reflexivity.
Qed.


(** ** The risk score *)

(** A non-empty history of records in range is assessed successfully. *)
Lemma assess_bounded (d : state) (history : list json) :
  history <> [] ->
  forallb bounded_record history = true ->
  exists r,
    fst (AccidentDetector.assess_driving_risk (JArr history) d) = Ok r
    /\ successful r = true.
Proof.
  intros Hne Hb.
  destruct (for_records_bounded (last_n 100 history)
              (last_n_forallb _ 100 _ Hb) ([], 0%Z)) as ([rf total] & Hloop).
  unfold AccidentDetector.assess_driving_risk.
  destruct history as [| r0 rest]; [congruence |].
  cbn [py_truthy negb].
  unfold try_except, bind, lift, ret, raise.
  cbn [py_slice_last100]. rewrite Hloop.
  destruct (Nat.eqb_spec (List.length (last_n 100 (r0 :: rest))) 0) as [E | E].
  - rewrite last_n_length in E. simpl in E. lia.
  - eexists. split; reflexivity.
Qed.

(** The successful results for a non-empty list of records. *)
Lemma assess_list_success (d : state) (history : list json) (r : json) :
  history <> [] ->
  fst (AccidentDetector.assess_driving_risk (JArr history) d) = Ok r ->
  successful r = true ->
  exists risk_factors penalties,
    let n := List.length (last_n 100 history) in
    let risk_score := clamp_score (sumZ penalties) n in
    r = JObj
          [("risk_score", JNum (py_round1 risk_score));
           ("risk_level", JStr (level_of_score risk_score));
           ("risk_factors", jstrs (py_list_set risk_factors));
           ("recommendations",
            jstrs (_get_safety_recommendations (level_of_score risk_score)))]
    /\ List.length penalties = n
    /\ Forall (fun p => 0 <= p <= 24)%Z penalties.
Proof.
  intros Hne Hr Hs.
  assert (Ht : py_truthy (JArr history) = true)
    by (destruct history; [congruence | reflexivity]).
  destruct (assess_success d (JArr history) r Ht Hr Hs)
    as (records & rf & total & Hslice & Hloop & _ & Hdict).
  cbn [py_slice_last100] in Hslice. injection Hslice as <-.
  apply for_records_penalties in Hloop as (ps & -> & Hlen & Hall).
  exists rf, ps. cbv zeta in Hdict |- *. rewrite Z.add_0_l in Hdict.
  split; [exact Hdict |]. split; [exact Hlen | exact Hall].
Qed.

(** C1, the input on which the claim fails: a one-record history whose
    only sensor field is a lateral acceleration of 1e200. The field is
    numeric, its square overflows, and the method returns the error dict,
    which holds no risk score. *)
Lemma numeric_history_without_score :
  forallb numeric_record [overflow_record] = true
  /\ fst (AccidentDetector.assess_driving_risk (JArr [overflow_record])
            sample_detector)
     = Ok (error_dict OverflowError)
  /\ field "risk_score" (error_dict OverflowError) = None.
Proof.
  split; [reflexivity |]. split; [vm_compute; reflexivity | reflexivity].
Qed.

(** C1, amended: a non-empty driving history whose records carry numeric
    sensor fields with coordinates of magnitude at most 10^9 is assessed
    successfully; and whenever the assessment of a non-empty history is
    successful, the returned [risk_score] is a number between 0 and 100,
    namely [min(100, max(0, 50 + total_score / n * 10))] rounded to one
    decimal, where [n] is the number of records among the last hundred and
    [total_score] a sum of [n] non-negative penalties. *)
Theorem assess_risk_score_in_range (d : state) (history : list json) :
  history <> [] ->
  (forallb bounded_record history = true ->
   exists r,
     fst (AccidentDetector.assess_driving_risk (JArr history) d) = Ok r
     /\ successful r = true)
  /\ (forall r,
         fst (AccidentDetector.assess_driving_risk (JArr history) d) = Ok r ->
         successful r = true ->
         exists s penalties,
           field "risk_score" r = Some (JNum s)
           /\ List.length penalties = List.length (last_n 100 history)
           /\ Forall (fun p => 0 <= p)%Z penalties
           /\ s = py_round1
                    (Qmin 100
                       (Qmax 0
                          (50 + inject_Z (sumZ penalties)
                                / inject_Z
                                    (Z.of_nat
                                       (List.length (last_n 100 history)))
                                * 10)))
           /\ 0 <= s <= 100).
Proof.
  intro Hne. split; [apply assess_bounded; exact Hne |].
  intros r Hr Hs.
  destruct (assess_list_success d history r Hne Hr Hs)
    as (rf & ps & -> & Hlen & Hall).
  eexists. exists ps.
  split; [reflexivity |]. split; [exact Hlen |]. split.
  { eapply Forall_impl; [| exact Hall]. cbv beta. intros; lia. }
  split; [reflexivity |].
  pose proof (clamp_score_range (sumZ ps) (List.length (last_n 100 history)))
    as [Hlo Hhi].
  split.
  - apply (Qle_trans _ (inject_Z 0 / 10)); [discriminate |].
    apply py_round1_lower.
    apply (Qle_trans _ (0 * 10)); [discriminate |].
    apply Qmult_le_compat_r; [exact Hlo | discriminate].
  - apply (Qle_trans _ (inject_Z 1000 / 10)); [| discriminate].
    apply py_round1_upper.
    apply (Qle_trans _ (100 * 10)); [| discriminate].
    apply Qmult_le_compat_r; [exact Hhi | discriminate].
Qed.

Lemma assess_risk_score_in_range_witness :
  (forallb bounded_record sample_history = true ->
   exists r,
     fst (AccidentDetector.assess_driving_risk (JArr sample_history)
            sample_detector) = Ok r
     /\ successful r = true)
  /\ (forall r,
         fst (AccidentDetector.assess_driving_risk (JArr sample_history)
                sample_detector) = Ok r ->
         successful r = true ->
         exists s penalties,
           field "risk_score" r = Some (JNum s)
           /\ List.length penalties = List.length (last_n 100 sample_history)
           /\ Forall (fun p => 0 <= p)%Z penalties
           /\ s = py_round1
                    (Qmin 100
                       (Qmax 0
                          (50 + inject_Z (sumZ penalties)
                                / inject_Z
                                    (Z.of_nat
                                       (List.length
                                          (last_n 100 sample_history)))
                                * 10)))
           /\ 0 <= s <= 100).
Proof.
  apply (assess_risk_score_in_range sample_detector sample_history).
  discriminate.
Defined.

(** C9, the input on which the claim fails: a history of two records
    with numeric sensor fields, the second with a rotation of -1e200
    about the vertical axis. The square overflows and the method returns
    the error dict, with no risk score and no risk level. *)
Lemma numeric_history_without_level :
  forallb numeric_record [quiet_record; spinning_record] = true
  /\ fst (AccidentDetector.assess_driving_risk
            (JArr [quiet_record; spinning_record]) sample_detector)
     = Ok (error_dict OverflowError)
  /\ field "risk_score" (error_dict OverflowError) = None
  /\ field "risk_level" (error_dict OverflowError) = None.
Proof.
  split; [reflexivity |]. split; [vm_compute; reflexivity |].
  split; reflexivity.
Qed.

(** C9, amended: a non-empty driving history whose records carry numeric
    sensor fields with coordinates of magnitude at most 10^9 is assessed
    successfully; and whenever the assessment of a non-empty history is
    successful, the returned [risk_score] is at least 50, and the returned
    [risk_level] is ["low"] only with a score between 50 and 60. *)
Theorem assess_risk_score_at_least_baseline (d : state) (history : list json) :
  history <> [] ->
  (forallb bounded_record history = true ->
   exists r,
     fst (AccidentDetector.assess_driving_risk (JArr history) d) = Ok r
     /\ successful r = true)
  /\ (forall r,
         fst (AccidentDetector.assess_driving_risk (JArr history) d) = Ok r ->
         successful r = true ->
         exists s level,
           field "risk_score" r = Some (JNum s)
           /\ field "risk_level" r = Some (JStr level)
           /\ 50 <= s
           /\ (level = "low" -> 50 <= s <= 60)).
Proof.
  intro Hne. split; [apply assess_bounded; exact Hne |].
  intros r Hr Hs.
  destruct (assess_list_success d history r Hne Hr Hs)
    as (rf & ps & -> & Hlen & Hall).
  do 2 eexists.
  split; [reflexivity |]. split; [reflexivity |].
  set (score := clamp_score (sumZ ps) (List.length (last_n 100 history))).
  assert (Hbase : 50 <= py_round1 score).
  { apply (Qle_trans _ (inject_Z 500 / 10)); [discriminate |].
    apply py_round1_lower.
    apply (Qle_trans _ (50 * 10)); [discriminate |].
    apply Qmult_le_compat_r; [| discriminate].
    apply clamp_score_baseline. apply sumZ_nonneg. exact Hall. }
  split; [exact Hbase |].
  intro Hlow. split; [exact Hbase |].
  apply level_of_score_low in Hlow.
  apply (Qle_trans _ (inject_Z 600 / 10)); [| discriminate].
  apply py_round1_upper.
  apply (Qle_trans _ (60 * 10)); [| discriminate].
  apply Qmult_le_compat_r; [exact Hlow | discriminate].
Qed.

Lemma assess_risk_score_at_least_baseline_witness :
  (forallb bounded_record [quiet_record; quiet_record] = true ->
   exists r,
     fst (AccidentDetector.assess_driving_risk
            (JArr [quiet_record; quiet_record]) sample_detector) = Ok r
     /\ successful r = true)
  /\ (forall r,
         fst (AccidentDetector.assess_driving_risk
                (JArr [quiet_record; quiet_record]) sample_detector) = Ok r ->
         successful r = true ->
         exists s level,
           field "risk_score" r = Some (JNum s)
           /\ field "risk_level" r = Some (JStr level)
           /\ 50 <= s
           /\ (level = "low" -> 50 <= s <= 60)).
Proof.
  apply (assess_risk_score_at_least_baseline sample_detector
           [quiet_record; quiet_record]).
  discriminate.
Defined.


(** C10: the result for a driving history is the result for its last
    hundred records; what precedes them has no effect on the score, the
    level, the risk factors or the recommendations. *)
Theorem assess_depends_on_last_hundred (d : state) (history : list json) :
  AccidentDetector.assess_driving_risk (JArr history) d
  = AccidentDetector.assess_driving_risk (JArr (last_n 100 history)) d.
Proof.
  unfold AccidentDetector.assess_driving_risk.
  assert (Htruthy :
    py_truthy (JArr (last_n 100 history)) = py_truthy (JArr history)).
  { cbn [py_truthy].
    pose proof (last_n_length 100 history) as Hlen.
    destruct history as [| r rest]; [reflexivity |].
    destruct (last_n 100 (r :: rest)); [simpl in Hlen; lia | reflexivity]. }
  rewrite Htruthy.
  destruct (py_truthy (JArr history)); [| reflexivity].
  cbn [negb py_slice_last100]. rewrite last_n_idempotent. reflexivity.
Qed.

(** C8: on the empty driving history the method returns exactly
    [risk_score] 50 and [risk_level] ["medium"], whatever the detector
    holds; and a result with score 50 and level ["medium"] comes from the
    guard [not driving_history] only. *)
Theorem assess_empty_history_default :
  (forall d,
      AccidentDetector.assess_driving_risk (JArr []) d
      = (Ok (JObj [("risk_score", JNum 50); ("risk_level", JStr "medium")]), d))
  /\ (forall d d',
         fst (AccidentDetector.assess_driving_risk (JArr []) d)
         = fst (AccidentDetector.assess_driving_risk (JArr []) d'))
  /\ (forall d history r s,
         fst (AccidentDetector.assess_driving_risk history d) = Ok r ->
         field "risk_score" r = Some (JNum s) ->
         s == 50 ->
         field "risk_level" r = Some (JStr "medium") ->
         py_truthy history = false).
Proof.
  split; [| split].
  - intro d. apply assess_falsy. reflexivity.
  - intros d d'. rewrite !assess_falsy by reflexivity. reflexivity.
  - intros d history r s Hr Hs Hs50 Hlevel.
    destruct (py_truthy history) eqn:Ht; [exfalso | reflexivity].
    destruct (assess_truthy d history Ht)
      as [(e & Heq) | (rf & total & n & Heq)];
      cbv zeta in Heq; rewrite Heq in Hr; cbn [fst] in Hr;
      injection Hr as <-.
    + discriminate.
    + cbn in Hs, Hlevel. injection Hs as <-. injection Hlevel as Hlevel.
      apply level_of_score_medium in Hlevel.
      assert (Hge : inject_Z 600 / 10 <= py_round1 (clamp_score total n)).
      { apply py_round1_lower.
        apply (Qle_trans _ (60 * 10)); [discriminate |].
        apply Qmult_le_compat_r; [apply Qlt_le_weak; exact Hlevel | discriminate]. }
      rewrite Hs50 in Hge. revert Hge. apply Qlt_not_le. reflexivity.
Qed.

(** C4, the input on which the claim fails: the result for the empty
    history is successful and has neither risk factors nor
    recommendations. *)
Lemma assess_empty_history_lacks_lists :
  exists r,
    fst (AccidentDetector.assess_driving_risk (JArr []) sample_detector) = Ok r
    /\ successful r = true
    /\ field "risk_factors" r = None
    /\ field "recommendations" r = None.
Proof.
  eexists. repeat split.
Qed.

(** C4, amended: a successful result always carries a [risk_score] and a
    [risk_level] among low, medium and high; it carries the lists of risk
    factors and of recommendations exactly when the history is not empty
    (more precisely, not falsy). *)
Theorem assess_result_fields (d : state) (history : json) :
  exists r,
    fst (AccidentDetector.assess_driving_risk history d) = Ok r
    /\ (successful r = true ->
        (exists s, field "risk_score" r = Some (JNum s))
        /\ (exists level,
               field "risk_level" r = Some (JStr level)
               /\ In level ["low"; "medium"; "high"])
        /\ (if py_truthy history
            then exists factors recommendations,
                field "risk_factors" r = Some (jstrs factors)
                /\ field "recommendations" r = Some (jstrs recommendations)
            else field "risk_factors" r = None
                 /\ field "recommendations" r = None)).
Proof.
  destruct (py_truthy history) eqn:Ht.
  - destruct (assess_truthy d history Ht)
      as [(e & Heq) | (rf & total & n & Heq)];
      cbv zeta in Heq; rewrite Heq; cbn [fst]; eexists;
      (split; [reflexivity |]).
    + discriminate.
    + intros _. split; [eexists; reflexivity |]. split.
      * eexists. split; [reflexivity | apply level_of_score_enum].
      * do 2 eexists. split; reflexivity.
  - rewrite (assess_falsy d history Ht). cbn [fst]. eexists.
    split; [reflexivity |]. intros _.
    split; [eexists; reflexivity |]. split.
    + eexists. split; [reflexivity | simpl; auto].
    + split; reflexivity.
Qed.

(** ** The detector is only read *)

Section ReadOnly.

Context {A B : Type}.

Lemma read_only_ret (a : A) : read_only (ret a).
Proof. intro d. reflexivity. Qed.

Lemma read_only_raise (e : exn) : read_only (@raise A e).
Proof. intro d. reflexivity. Qed.

Lemma read_only_lift (r : result A) : read_only (lift r).
Proof. intro d. reflexivity. Qed.

Lemma read_only_self (f : state -> A) : read_only (self f).
Proof. intro d. reflexivity. Qed.

Lemma read_only_bind (c : M A) (k : A -> M B) :
  read_only c -> (forall a, read_only (k a)) -> read_only (bind c k).
Proof.
  intros Hc Hk d. unfold bind. specialize (Hc d).
  destruct (c d) as [[a | e] d']; cbn [snd] in Hc; subst d'.
  - apply Hk.
  - reflexivity.
Qed.

Lemma read_only_try_except (body : M A) (handler : exn -> M A) :
  read_only body -> (forall e, read_only (handler e)) ->
  read_only (try_except body handler).
Proof.
  intros Hb Hh d. unfold try_except. specialize (Hb d).
  destruct (body d) as [[a | e] d']; cbn [snd] in Hb; subst d'.
  - reflexivity.
  - apply Hh.
Qed.

End ReadOnly.

(** An assignment to the detector is what the property excludes. *)
Lemma put_not_read_only : ~ read_only (put untrained_detector).
Proof.
  intro H. specialize (H sample_detector). discriminate H.
Qed.

Ltac read_only_step :=
  first
    [ apply read_only_ret
    | apply read_only_raise
    | apply read_only_lift
    | apply read_only_self
    | apply read_only_bind; [| intro]
    | apply read_only_try_except; [| intro]
    | match goal with
      | |- read_only (if ?b then _ else _) => destruct b
      | |- read_only (match ?x with _ => _ end) => destruct x
      end ].

Lemma detect_accident_read_only (sensor_data : json) :
  read_only (AccidentDetector.detect_accident sensor_data).
Proof.
  unfold AccidentDetector.detect_accident. repeat read_only_step.
Qed.

Lemma assess_read_only (driving_history : json) :
  read_only (AccidentDetector.assess_driving_risk driving_history).
Proof.
  unfold AccidentDetector.assess_driving_risk. repeat read_only_step.
Qed.

Lemma dispatch_read_only (py_format : json -> string) (endpoint : Endpoint)
  (request : Request) :
  read_only (dispatch py_format endpoint request).
Proof.
  destruct endpoint; cbn [dispatch];
    unfold health_check, analyze_emergency, assess_driving_risk,
      predict_behavior;
    repeat first
      [ apply detect_accident_read_only
      | apply assess_read_only
      | read_only_step ].
Qed.

(** C7: [detect_accident] and [assess_driving_risk] hand back the detector
    they were given (scaler, models and [is_trained] flag), and so does the
    handling of every request; hence a request handled after another one is
    handled exactly as if it had come first. *)
Theorem detector_unchanged_by_requests :
  (forall sensor_data d,
      snd (AccidentDetector.detect_accident sensor_data d) = d)
  /\ (forall driving_history d,
         snd (AccidentDetector.assess_driving_risk driving_history d) = d)
  /\ (forall py_format endpoint request d,
         snd (dispatch py_format endpoint request d) = d)
  /\ (forall py_format endpoint request endpoint' request' d,
         dispatch py_format endpoint' request'
           (snd (dispatch py_format endpoint request d))
         = dispatch py_format endpoint' request' d).
Proof.
  split; [| split; [| split]].
  - intros sd d. apply detect_accident_read_only.
  - intros h d. apply assess_read_only.
  - intros f e r d. apply dispatch_read_only.
  - intros f e r e' r' d. rewrite dispatch_read_only. reflexivity.
Qed.

(** ** The result of [detect_accident] *)

(** The method returns an error dict, or the five-field dict built from
    the classifier's probability for the scaled numeric row. *)
Lemma detect_accident_cases (d : state) (sensor_data : json) :
  (exists msg,
      AccidentDetector.detect_accident sensor_data d
      = (Ok (JObj [("error", JStr msg)]), d))
  \/ (exists row level,
         let scaled := transform (scaler d) row in
         let p := predict_proba (accident_model d) scaled in
         let detected :=
           Qltb 0.7 p
           || ((outlier_predict (anomaly_detector d) scaled =? -1)%Z
               && Qltb 0.4 p) in
         is_trained d = true
         /\ rbind (extract_features sensor_data) np_row = Ok row
         /\ AccidentDetector.detect_accident sensor_data d
            = (Ok (JObj
                     [("accident_detected", JBool detected);
                      ("accident_probability", JNum p);
                      ("anomaly_score",
                       JNum (score_samples (anomaly_detector d) scaled));
                      ("risk_level", JStr level);
                      ("confidence", JNum (if detected then p else 1 - p))]),
               d)).
Proof.
  unfold AccidentDetector.detect_accident, try_except, bind, lift, self, ret.
  destruct (is_trained d) eqn:Ht; cbn [negb];
    [| left; eexists; reflexivity].
  destruct (extract_features sensor_data) as [features | e];
    [| left; eexists; reflexivity].
  destruct (np_row features) as [row | e] eqn:Hrow;
    [| left; eexists; reflexivity].
  destruct (py_index ["low"; "medium"; "high"]
              (predict (risk_model d) (transform (scaler d) row)))
    as [level | e];
    [| left; eexists; reflexivity].
  right. exists row, level. cbv zeta. repeat split. exact Hrow.
Qed.



(** ** Failures at the request boundary *)

Lemma returns_200_jsonify (body : json) : returns_200 (ret (jsonify body)).
Proof.
  intros d response d' H. injection H as <- _. reflexivity.
Qed.

Lemma returns_200_bind {A} (c : M A) (k : A -> M Response) :
  (forall a, returns_200 (k a)) -> returns_200 (bind c k).
Proof.
  intros Hk d response d' H. unfold bind in H.
  destruct (c d) as [[a | e] d1].
  - exact (Hk a d1 response d' H).
  - discriminate.
Qed.

Ltac returns_200_step :=
  first
    [ apply returns_200_jsonify
    | apply returns_200_bind; intro
    | match goal with
      | |- returns_200 (if ?b then _ else _) => destruct b
      | |- returns_200 (match ?x with _ => _ end) => destruct x
      end ].

(** A handler built as [try: body except Exception as e: 500] answers
    with the response of its body, or with the error payload. *)
Lemma boundary_response (body : M Response) (d : state) :
  returns_200 body ->
  exists payload status,
    fst (try_except body (fun e => ret (error_response e)) d)
    = Ok (payload, status)
    /\ (status = 200%Z
        \/ (status = 500%Z /\ exists e, payload = error_dict e)).
Proof.
  intro Hbody. unfold try_except. specialize (Hbody d).
  destruct (body d) as [[[payload status] | e] d'].
  - exists payload, status. split; [reflexivity |].
    left. exact (Hbody _ _ eq_refl).
  - exists (error_dict e), 500%Z. split; [reflexivity |].
    right. split; [reflexivity |]. exists e. reflexivity.
Qed.

Lemma post_response (py_format : json -> string) (endpoint : Endpoint)
  (request : Request) (d : state) :
  is_post endpoint = true ->
  exists payload status,
    fst (dispatch py_format endpoint request d) = Ok (payload, status)
    /\ (status = 200%Z
        \/ (status = 500%Z /\ exists e, payload = error_dict e)).
Proof.
  destruct endpoint; [discriminate | | |]; intros _; cbn [dispatch];
    unfold analyze_emergency, assess_driving_risk, predict_behavior;
    apply boundary_response; repeat returns_200_step.
Qed.

Lemma unreadable_request (py_format : json -> string) (endpoint : Endpoint)
  (e : exn) (d : state) :
  is_post endpoint = true ->
  dispatch py_format endpoint {| get_json := Raise e |} d
  = (Ok (error_response e), d).
Proof.
  destruct endpoint; [discriminate | | |]; reflexivity.
Qed.

Lemma detect_accident_returns (d : state) (sensor_data : json) :
  exists kv,
    AccidentDetector.detect_accident sensor_data d = (Ok (JObj kv), d).
Proof.
  destruct (detect_accident_cases d sensor_data)
    as [(msg & Heq) | (row & level & Heq)].
  - eexists. exact Heq.
  - cbv zeta in Heq. destruct Heq as (_ & _ & Heq). eexists. exact Heq.
Qed.

(** Whatever [detect_accident] returns, error dict included,
    [analyze_emergency] sends it under ["analysis"] with status 200, as
    long as the vital signs it reads itself are numbers. *)
Lemma analyze_emergency_embeds_analysis (d : state)
  (data sensor : list (string * json)) :
  py_get (JObj data) "sensorData" (JObj []) = Ok (JObj sensor) ->
  absent_or is_num "heartRate" sensor = true ->
  absent_or is_num "oxygenLevel" sensor = true ->
  exists analysis payload,
    fst (AccidentDetector.detect_accident (JObj sensor) d) = Ok analysis
    /\ fst (analyze_emergency (json_request (JObj data)) d)
       = Ok (payload, 200%Z)
    /\ field "analysis" payload = Some analysis.
Proof.
  intros Hsd Hhr Hox.
  destruct (detect_accident_returns d (JObj sensor)) as (kv & Hdet).
  exists (JObj kv). rewrite Hdet. cbn [fst].
  cbn [py_get] in Hsd. injection Hsd as Hsd.
  unfold absent_or, is_num in Hhr, Hox.
  unfold analyze_emergency, json_request, try_except, bind, lift, ret.
  cbn [get_json py_get]. rewrite Hsd, Hdet.
  unfold py_get_none, py_gt, py_lt. cbn [py_get].
  destruct (lookup "heartRate" sensor) as [hr |];
    [destruct (as_num hr) as [h |]; [| discriminate] | cbn [as_num]];
    (destruct (lookup "oxygenLevel" sensor) as [ox |];
     [destruct (as_num ox) as [o |]; [| discriminate] | cbn [as_num]]);
    destruct (py_truthy _);
    repeat match goal with
           | |- context [Qltb ?a ?b] => destruct (Qltb a b)
           end;
    eexists; (split; [reflexivity |]); (split; reflexivity).
Qed.

(** C3, the input on which the claim fails: a reading whose speed is a
    string makes [scaler.transform] raise inside [detect_accident]; the
    detector catches the exception itself and [analyze_emergency] answers
    with status 200, the error dict sitting under ["analysis"]. *)
Lemma detector_error_answered_with_200 :
  fst (AccidentDetector.detect_accident bad_speed_reading sample_detector)
  = Ok (error_dict ValueError)
  /\ exists payload,
      fst (analyze_emergency
             (json_request (JObj [("sensorData", bad_speed_reading)]))
             sample_detector)
      = Ok (payload, 200%Z)
      /\ field "analysis" payload = Some (error_dict ValueError).
Proof.
  split; [reflexivity |]. eexists. split; reflexivity.
Qed.

(** C3, amended: a POST handler lets no exception escape and answers with
    status 200 or with the JSON error payload and status 500; an
    exception of the handler's own code, such as an unreadable body or a
    body that is not a JSON object, gives the 500 payload; a failure inside [detect_accident] is caught by the
    detector, and [analyze_emergency] returns its error dict under
    ["analysis"] with status 200. *)
Theorem post_failures_at_boundary :
  (forall py_format endpoint request d,
      is_post endpoint = true ->
      exists payload status,
        fst (dispatch py_format endpoint request d) = Ok (payload, status)
        /\ (status = 200%Z
            \/ (status = 500%Z /\ exists e, payload = error_dict e)))
  /\ (forall py_format endpoint e d,
         is_post endpoint = true ->
         fst (dispatch py_format endpoint {| get_json := Raise e |} d)
         = Ok (error_dict e, 500%Z))
  /\ (forall py_format endpoint data d,
         is_post endpoint = true ->
         (forall kv, data <> JObj kv) ->
         fst (dispatch py_format endpoint (json_request data) d)
         = Ok (error_dict AttributeError, 500%Z))
  /\ (forall d data sensor,
         py_get (JObj data) "sensorData" (JObj []) = Ok (JObj sensor) ->
         absent_or is_num "heartRate" sensor = true ->
         absent_or is_num "oxygenLevel" sensor = true ->
         exists analysis payload,
           fst (AccidentDetector.detect_accident (JObj sensor) d) = Ok analysis
           /\ fst (analyze_emergency (json_request (JObj data)) d)
              = Ok (payload, 200%Z)
           /\ field "analysis" payload = Some analysis).
Proof.
  split; [| split; [| split]].
  - intros. apply post_response. assumption.
  - intros f endpoint e d Hpost. rewrite unreadable_request by assumption.
    reflexivity.
  - intros f endpoint data d Hpost Hdata.
    destruct data as [| | | | | kv]; [| | | | | destruct (Hdata kv eq_refl)];
      (destruct endpoint; [discriminate | | |]; reflexivity).
  - intros d data sensor. apply analyze_emergency_embeds_analysis.
Qed.

(** ** The acceleration magnitude compared to the thresholds *)

Lemma Q2R_inject_Z (k : Z) : Q2R (inject_Z k) = IZR k.
Proof.
  unfold Q2R. cbn [Qnum Qden inject_Z]. rewrite RMicromega.Rinv_1. reflexivity.
Qed.

Lemma np_sqrt_gt_euclidean (x y z : Q) (t : Z) :
  (0 <= t)%Z ->
  np_sqrt_gt (x * x + y * y + z * z) (inject_Z t) = true
  <-> (IZR t < euclidean_norm x y z)%R.
Proof.
  intro Ht. rewrite np_sqrt_gt_spec.
  - unfold euclidean_norm. rewrite !Q2R_plus, !Q2R_mult, Q2R_inject_Z.
    reflexivity.
  - change 0 with (inject_Z 0). rewrite <- Zle_Qle. exact Ht.
Qed.

Lemma np_sqrt_gt_horizontal (x y : Q) (t : Z) :
  (0 <= t)%Z ->
  np_sqrt_gt (x * x + y * y) (inject_Z t) = true
  <-> (IZR t < horizontal_norm x y)%R.
Proof.
  intro Ht. rewrite np_sqrt_gt_spec.
  - unfold horizontal_norm. rewrite !Q2R_plus, !Q2R_mult, Q2R_inject_Z.
    reflexivity.
  - change 0 with (inject_Z 0). rewrite <- Zle_Qle. exact Ht.
Qed.

Lemma np_sqrt_gt_mono (m t t' : Q) :
  0 <= t -> t <= t' -> np_sqrt_gt m t' = true -> np_sqrt_gt m t = true.
Proof.
  unfold np_sqrt_gt. rewrite !Qltb_true. intros H0 Hle H. Lqa.nra.
Qed.

Lemma record_step_accel_record (x y z : Q) (risk_factors : list string)
  (total_score : Z) (acc' : list string * Z) :
  record_step (accel_record x y z) (risk_factors, total_score) = Ok acc' ->
  acc' = if np_sqrt_gt (x * x + y * y + z * z) 15
         then ((risk_factors ++ ["Hard braking/acceleration detected"])%list,
               (total_score + 8)%Z)
         else if np_sqrt_gt (x * x + y * y + z * z) 12
              then (risk_factors, (total_score + 4)%Z)
              else (risk_factors, total_score).
Proof.
  unfold record_step, accel_record, accel_reading.
  cbn [py_get lookup String.eqb Ascii.eqb Bool.eqb rbind].
  cbn [py_gt as_num rbind].
  replace (Qltb 100 0) with false by reflexivity.
  replace (Qltb 80 0) with false by reflexivity.
  cbn [rbind magnitude_sq py_get lookup String.eqb Ascii.eqb Bool.eqb py_sq
         as_num].
  change (Qle_bool float_overflow (0 * 0)) with false. cbv iota.
  destruct (Qle_bool float_overflow (x * x)); cbn [rbind];
    [intro H; discriminate H |].
  destruct (Qle_bool float_overflow (y * y)); cbn [rbind];
    [intro H; discriminate H |].
  destruct (Qle_bool float_overflow (z * z)); cbn [rbind];
    [intro H; discriminate H |].
  replace (np_sqrt_gt (0 * 0 + 0 * 0 + 0 * 0) 3) with false by reflexivity.
  replace (np_sqrt_gt (0 * 0 + 0 * 0 + 0 * 0) 2) with false by reflexivity.
  destruct (np_sqrt_gt (x * x + y * y + z * z) 15);
    [| destruct (np_sqrt_gt (x * x + y * y + z * z) 12)];
    intro H; injection H as <-; reflexivity.
Qed.

Lemma risk_label_accel_row (x y z heart : Q) :
  Qltb 100 heart = false ->
  risk_label (accel_row x y z heart)
  = if np_sqrt_gt (x * x + y * y + z * z) 12 then 1%Z else 0%Z.
Proof.
  intro Hh. unfold risk_label, accel_row.
  cbn [speed accel_x accel_y accel_z gyro_x gyro_y gyro_z heart_rate
         oxygen_level].
  rewrite Hh.
  replace (Qltb 80 0) with false by reflexivity.
  replace (Qltb 60 0) with false by reflexivity.
  replace (Qltb 98 95) with false by reflexivity.
  replace (np_sqrt_gt (0 * 0 + 0 * 0 + 0 * 0) 2) with false by reflexivity.
  replace (np_sqrt_gt (0 * 0 + 0 * 0 + 0 * 0) 1) with false by reflexivity.
  destruct (np_sqrt_gt (x * x + y * y + z * z) 12);
    [| destruct (np_sqrt_gt (x * x + y * y + z * z) 10)]; reflexivity.
Qed.

Lemma risk_label_accel_row_stressed (x y z heart : Q) :
  Qltb 100 heart = true ->
  risk_label (accel_row x y z heart)
  = if np_sqrt_gt (x * x + y * y + z * z) 10 then 1%Z else 0%Z.
Proof.
  intro Hh. unfold risk_label, accel_row.
  cbn [speed accel_x accel_y accel_z gyro_x gyro_y gyro_z heart_rate
         oxygen_level].
  rewrite Hh.
  replace (Qltb 80 0) with false by reflexivity.
  replace (Qltb 60 0) with false by reflexivity.
  replace (np_sqrt_gt (0 * 0 + 0 * 0 + 0 * 0) 2) with false by reflexivity.
  replace (np_sqrt_gt (0 * 0 + 0 * 0 + 0 * 0) 1) with false by reflexivity.
  destruct (np_sqrt_gt (x * x + y * y + z * z) 12) eqn:H12.
  - rewrite (np_sqrt_gt_mono _ 10 12); [reflexivity | | | exact H12];
      discriminate.
  - destruct (np_sqrt_gt (x * x + y * y + z * z) 10); reflexivity.
Qed.

Lemma assess_accel_record (d : state) (x y z : Q) (r : json) :
  fst (AccidentDetector.assess_driving_risk (JArr [accel_record x y z]) d)
  = Ok r ->
  successful r = true ->
  field "risk_factors" r
  = Some (jstrs (if np_sqrt_gt (x * x + y * y + z * z) 15
                 then ["Hard braking/acceleration detected"]
                 else []))
  /\ field "risk_level" r
     = Some (JStr (if np_sqrt_gt (x * x + y * y + z * z) 12
                   then "high" else "low")).
Proof.
  intros Hr Hs.
  destruct (assess_success d (JArr [accel_record x y z]) r eq_refl Hr Hs)
    as (records & rf & total & Hslice & Hloop & _ & ->).
  change (py_slice_last100 (JArr [accel_record x y z]))
    with (@Ok (list json) [accel_record x y z]) in Hslice.
  injection Hslice as <-.
  cbn [for_records] in Hloop.
  destruct (record_step (accel_record x y z) ([], 0%Z)) as [acc' | e] eqn:Hstep;
    cbn [rbind] in Hloop; [| discriminate Hloop].
  injection Hloop as ->.
  apply record_step_accel_record in Hstep.
  cbv zeta. cbn [List.length].
  destruct (np_sqrt_gt (x * x + y * y + z * z) 15) eqn:H15.
  - rewrite (np_sqrt_gt_mono _ 12 15); [| discriminate | discriminate | exact H15].
    injection Hstep as -> ->. split; reflexivity.
  - destruct (np_sqrt_gt (x * x + y * y + z * z) 12);
      injection Hstep as -> ->; split; reflexivity.
Qed.

Lemma predict_behavior_accel_reading (py_format : json -> string) (d : state)
  (x y z : Q) (payload : json) :
  fst (predict_behavior py_format
         (json_request (JObj [("sensorData", accel_reading x y z)])) d)
  = Ok (payload, 200%Z) ->
  field "riskyBehaviors" payload
  = Some (jstrs (if np_sqrt_gt (x * x + y * y) 8
                 then ["harsh_acceleration"] else [])).
Proof.
  destruct (detect_accident_returns d (accel_reading x y z)) as (kv & Hdet).
  unfold predict_behavior, json_request, try_except, bind, lift, ret.
  cbn [get_json py_get lookup String.eqb Ascii.eqb Bool.eqb].
  rewrite Hdet.
  unfold accel_reading.
  cbn [py_get lookup String.eqb Ascii.eqb Bool.eqb py_gt as_num py_sq
         magnitude_sq rbind].
  replace (Qltb 80 0) with false by reflexivity.
  change (Qle_bool float_overflow (0 * 0)) with false. cbv iota.
  destruct (Qle_bool float_overflow (x * x)); cbv beta iota;
    [cbn [fst]; intro H; discriminate H |].
  destruct (Qle_bool float_overflow (y * y)); cbv beta iota;
    [cbn [fst]; intro H; discriminate H |].
  cbn [rbind].
  replace (np_sqrt_gt (0 * 0 + 0 * 0 + 0 * 0) 2) with false by reflexivity.
  destruct (np_sqrt_gt (x * x + y * y) 8);
    cbn [fst]; intro H; injection H as <-; reflexivity.
Qed.

Lemma predict_behavior_vertical_axis_unread (py_format : json -> string)
  (d : state) (x y z z' : Q) :
  fst (predict_behavior py_format
         (json_request (JObj [("sensorData", accel_reading x y z)])) d)
  = fst (predict_behavior py_format
           (json_request (JObj [("sensorData", accel_reading x y z')])) d).
Proof.
  destruct (detect_accident_returns d (accel_reading x y z)) as (kv & Hdet).
  destruct (detect_accident_returns d (accel_reading x y z')) as (kv' & Hdet').
  unfold predict_behavior, json_request, try_except, bind, lift, ret.
  cbn [get_json py_get lookup String.eqb Ascii.eqb Bool.eqb].
  rewrite Hdet, Hdet'. reflexivity.
Qed.

(** C6, the input on which the claim fails: for a vehicle at rest, with
    gravity alone on the vertical axis, the norm of the full vector is 9.8,
    above the threshold 8 of [predict_behavior], and no harsh acceleration
    is reported. *)
Lemma predict_behavior_ignores_vertical_axis :
  (8 < euclidean_norm 0 0 (-9.8))%R
  /\ exists payload,
      fst (predict_behavior (fun _ => "")
             (json_request (JObj [("sensorData", accel_reading 0 0 (-9.8))]))
             sample_detector)
      = Ok (payload, 200%Z)
      /\ field "riskyBehaviors" payload = Some (jstrs []).
Proof.
  split.
  - apply (np_sqrt_gt_euclidean 0 0 (-9.8) 8); [lia | reflexivity].
  - eexists. split; reflexivity.
Qed.

(** C6, amended: risk-label generation and driving-risk assessment
    compare the Euclidean norm of the full accelerometer vector with their
    thresholds (12 and 10 for the labels, 15 and 12 for the assessment): a
    norm at least 0.05 above a threshold is treated as above it, a norm at
    least 0.05 below as not above it, and in between the rounding of the
    floats decides. Behavior prediction applies its threshold of 8, in the
    same way, to the norm of the horizontal components [x] and [y], and
    does not read [z]. The statements on the assessment and on the
    prediction are about the requests that are answered: with a result
    that is no error dict, and with status 200. *)
Theorem acceleration_magnitude_used (py_format : json -> string) (d : state)
  (x y z : Q) :
  ((12.05 <= euclidean_norm x y z)%R -> risk_label (accel_row x y z 75) = 1%Z)
  /\ ((euclidean_norm x y z <= 11.95)%R ->
      risk_label (accel_row x y z 75) = 0%Z)
  /\ ((10.05 <= euclidean_norm x y z)%R ->
      risk_label (accel_row x y z 101) = 1%Z)
  /\ ((euclidean_norm x y z <= 9.95)%R ->
      risk_label (accel_row x y z 101) = 0%Z)
  /\ (forall r,
         fst (AccidentDetector.assess_driving_risk
                (JArr [accel_record x y z]) d) = Ok r ->
         successful r = true ->
         exists factors level,
           field "risk_factors" r = Some (jstrs factors)
           /\ field "risk_level" r = Some (JStr level)
           /\ ((15.05 <= euclidean_norm x y z)%R ->
               In "Hard braking/acceleration detected" factors)
           /\ ((euclidean_norm x y z <= 14.95)%R ->
               ~ In "Hard braking/acceleration detected" factors)
           /\ ((12.05 <= euclidean_norm x y z)%R -> level = "high")
           /\ ((euclidean_norm x y z <= 11.95)%R -> level = "low"))
  /\ (forall payload,
         fst (predict_behavior py_format
                (json_request (JObj [("sensorData", accel_reading x y z)])) d)
         = Ok (payload, 200%Z) ->
         exists behaviors,
           field "riskyBehaviors" payload = Some (jstrs behaviors)
           /\ ((8.05 <= horizontal_norm x y)%R ->
               In "harsh_acceleration" behaviors)
           /\ ((horizontal_norm x y <= 7.95)%R ->
               ~ In "harsh_acceleration" behaviors))
  /\ (forall z',
         fst (predict_behavior py_format
                (json_request (JObj [("sensorData", accel_reading x y z)])) d)
         = fst (predict_behavior py_format
                  (json_request (JObj [("sensorData", accel_reading x y z')]))
                  d)).
Proof.
  pose proof (np_sqrt_gt_euclidean x y z 10 ltac:(lia)) as H10.
  pose proof (np_sqrt_gt_euclidean x y z 12 ltac:(lia)) as H12.
  pose proof (np_sqrt_gt_euclidean x y z 15 ltac:(lia)) as H15.
  pose proof (np_sqrt_gt_horizontal x y 8 ltac:(lia)) as H8.
  change (inject_Z 10) with 10 in H10. change (inject_Z 12) with 12 in H12.
  change (inject_Z 15) with 15 in H15. change (inject_Z 8) with 8 in H8.
  assert (Hyes : forall b (t n : R),
             (b = true <-> (t < n)%R) -> (t < n)%R -> b = true)
    by (intros b t n Hb Hlt; apply Hb; exact Hlt).
  assert (Hno : forall b (t n : R),
             (b = true <-> (t < n)%R) -> (n <= t)%R -> b = false).
  { intros b t n Hb Hle. destruct b; [| reflexivity].
    exfalso. apply (Rlt_irrefl t). apply Rlt_le_trans with n; [| exact Hle].
    apply Hb. reflexivity. }
  split; [| split; [| split; [| split; [| split; [| split]]]]].
  - intro H. rewrite risk_label_accel_row by reflexivity.
    rewrite (Hyes _ _ _ H12) by lra. reflexivity.
  - intro H. rewrite risk_label_accel_row by reflexivity.
    rewrite (Hno _ _ _ H12) by lra. reflexivity.
  - intro H. rewrite risk_label_accel_row_stressed by reflexivity.
    rewrite (Hyes _ _ _ H10) by lra. reflexivity.
  - intro H. rewrite risk_label_accel_row_stressed by reflexivity.
    rewrite (Hno _ _ _ H10) by lra. reflexivity.
  - intros r Hr Hs.
    destruct (assess_accel_record d x y z r Hr Hs) as (Hf & Hl).
    do 2 eexists. split; [exact Hf |]. split; [exact Hl |].
    split; [| split; [| split]]; intro H.
    + rewrite (Hyes _ _ _ H15) by lra. left. reflexivity.
    + rewrite (Hno _ _ _ H15) by lra. intros [].
    + rewrite (Hyes _ _ _ H12) by lra. reflexivity.
    + rewrite (Hno _ _ _ H12) by lra. reflexivity.
  - intros payload Hp.
    eexists. split; [exact (predict_behavior_accel_reading _ _ _ _ _ _ Hp) |].
    split; intro H.
    + rewrite (Hyes _ _ _ H8) by lra. left. reflexivity.
    + rewrite (Hno _ _ _ H8) by lra. intros [].
  - intro z'. apply predict_behavior_vertical_axis_unread.
Qed.

(** ** Defaults of the absent fields *)

Lemma lookup_update_same (k : string) (f : option json -> json)
  (kv : list (string * json)) :
  lookup k (update k f kv) = Some (f (lookup k kv)).
Proof.
  induction kv as [| [k' v] rest IH]; cbn [update lookup].
  - rewrite String.eqb_refl. reflexivity.
  - destruct (String.eqb k k') eqn:E; cbn [lookup]; rewrite E.
    + reflexivity.
    + exact IH.
Qed.

Lemma lookup_update_other (k k' : string) (f : option json -> json)
  (kv : list (string * json)) :
  String.eqb k' k = false ->
  lookup k' (update k f kv) = lookup k' kv.
Proof.
  intro Hne. induction kv as [| [k0 v] rest IH]; cbn [update lookup].
  - rewrite Hne. reflexivity.
  - destruct (String.eqb k k0) eqn:E; cbn [lookup].
    + apply String.eqb_eq in E. subst k0. rewrite Hne. reflexivity.
    + rewrite IH. reflexivity.
Qed.

Lemma py_get_update_default (k : string) (default : json)
  (kv : list (string * json)) :
  py_get (JObj (update k (or_default default) kv)) k default
  = py_get (JObj kv) k default.
Proof.
  cbn [py_get]. rewrite lookup_update_same.
  destruct (lookup k kv); reflexivity.
Qed.

Lemma py_get_update_other (k k' : string) (f : option json -> json)
  (default : json) (kv : list (string * json)) :
  String.eqb k' k = false ->
  py_get (JObj (update k f kv)) k' default = py_get (JObj kv) k' default.
Proof.
  intro Hne. cbn [py_get]. rewrite lookup_update_other by exact Hne.
  reflexivity.
Qed.

(** Reading a coordinate of a completed vector. *)
Lemma py_get_vector_with_defaults (z_default : Q) (o : option json)
  (k : string) (default : json) :
  In (k, default) [("x", JNum 0); ("y", JNum 0); ("z", JNum z_default)] ->
  py_get (vector_with_defaults z_default o) k default
  = py_get (or_default (JObj []) o) k default.
Proof.
  intro Hin. unfold vector_with_defaults.
  destruct (or_default (JObj []) o) as [| | | | | kv]; try reflexivity.
  destruct Hin as [H | [H | [H | []]]]; injection H as <- <-;
    repeat (rewrite py_get_update_default
            || rewrite py_get_update_other by reflexivity);
    reflexivity.
Qed.

Lemma magnitude_sq_with_defaults (z_default : Q) (o : option json) :
  magnitude_sq (vector_with_defaults z_default o) z_default
  = magnitude_sq (or_default (JObj []) o) z_default.
Proof.
  unfold magnitude_sq.
  rewrite !py_get_vector_with_defaults by (simpl; auto).
  reflexivity.
Qed.

(** Reading a field of a completed sensor reading. *)
Lemma py_get_with_defaults (sensor_data : json) (k : string) (default : json) :
  In (k, default)
     [("speed", JNum 0); ("heartRate", JNum 75); ("oxygenLevel", JNum 98)] ->
  py_get (with_defaults sensor_data) k default = py_get sensor_data k default.
Proof.
  intro Hin. destruct sensor_data as [| | | | | kv]; try reflexivity.
  unfold with_defaults.
  destruct Hin as [H | [H | [H | []]]]; injection H as <- <-;
    repeat (rewrite py_get_update_default
            || rewrite py_get_update_other by reflexivity);
    reflexivity.
Qed.

Lemma get2_with_defaults (sensor_data : json) (k1 k2 : string) (z_default : Q)
  (default : json) :
  In (k1, z_default) [("accelerometer", -9.8); ("gyroscope", 0)] ->
  In (k2, default) [("x", JNum 0); ("y", JNum 0); ("z", JNum z_default)] ->
  get2 (with_defaults sensor_data) k1 k2 default
  = get2 sensor_data k1 k2 default.
Proof.
  intros H1 H2. destruct sensor_data as [| | | | | kv]; try reflexivity.
  unfold get2, with_defaults. cbn [py_get rbind].
  destruct H1 as [H | [H | []]]; injection H as <- <-;
    repeat (rewrite lookup_update_same
            || rewrite lookup_update_other by reflexivity);
    cbn [or_default];
    rewrite py_get_vector_with_defaults by exact H2;
    reflexivity.
Qed.

Lemma extract_features_with_defaults (sensor_data : json) :
  extract_features (with_defaults sensor_data)
  = extract_features sensor_data.
Proof.
  unfold extract_features.
  rewrite !(get2_with_defaults sensor_data "accelerometer" _ (-9.8))
    by (simpl; auto).
  rewrite !(get2_with_defaults sensor_data "gyroscope" _ 0) by (simpl; auto).
  rewrite !py_get_with_defaults by (simpl; auto).
  reflexivity.
Qed.

Lemma detect_accident_with_defaults (sensor_data : json) (d : state) :
  AccidentDetector.detect_accident (with_defaults sensor_data) d
  = AccidentDetector.detect_accident sensor_data d.
Proof.
  unfold AccidentDetector.detect_accident.
  rewrite extract_features_with_defaults. reflexivity.
Qed.

Lemma analyze_emergency_with_defaults (data : json) (d : state) :
  analyze_emergency (json_request (sensor_data_with_defaults data)) d
  = analyze_emergency (json_request data) d.
Proof.
  destruct data as [| | | | | kv]; try reflexivity.
  unfold analyze_emergency, sensor_data_with_defaults.
  cbv beta iota delta [try_except bind lift json_request get_json].
  cbn [py_get]. rewrite lookup_update_same.
  rewrite ?(lookup_update_other "sensorData") by reflexivity.
  fold (or_default (JObj []) (lookup "sensorData" kv)).
  set (sensor_data := or_default (JObj []) (lookup "sensorData" kv)).
  rewrite detect_accident_with_defaults.
  rewrite !py_get_with_defaults by (simpl; auto).
  reflexivity.
Qed.

Lemma record_step_with_defaults (record : json) (acc : list string * Z) :
  record_step (sensor_data_with_defaults record) acc = record_step record acc.
Proof.
  destruct record as [| | | | | kv]; try reflexivity.
  destruct acc as [risk_factors total_score].
  unfold record_step, sensor_data_with_defaults.
  cbn [py_get rbind]. rewrite lookup_update_same.
  fold (or_default (JObj []) (lookup "sensorData" kv)).
  destruct (or_default (JObj []) (lookup "sensorData" kv))
    as [| | | | | sensor]; try reflexivity.
  unfold with_defaults. cbn [py_get rbind].
  repeat (rewrite lookup_update_same
          || rewrite lookup_update_other by reflexivity).
  rewrite !magnitude_sq_with_defaults.
  reflexivity.
Qed.

Lemma for_records_with_defaults (records : list json)
  (acc : list string * Z) :
  for_records (map sensor_data_with_defaults records) acc
  = for_records records acc.
Proof.
  revert acc. induction records as [| record rest IH]; intro acc.
  - reflexivity.
  - cbn [map for_records]. rewrite record_step_with_defaults.
    destruct (record_step record acc) as [acc' | e]; cbn [rbind].
    + apply IH.
    + reflexivity.
Qed.

Lemma last_n_map {A B} (f : A -> B) (n : nat) (l : list A) :
  last_n n (map f l) = map f (last_n n l).
Proof.
  unfold last_n. rewrite length_map. apply skipn_map.
Qed.

Lemma assess_with_defaults (history : list json) (d : state) :
  AccidentDetector.assess_driving_risk
    (JArr (map sensor_data_with_defaults history)) d
  = AccidentDetector.assess_driving_risk (JArr history) d.
Proof.
  unfold AccidentDetector.assess_driving_risk.
  destruct history as [| record rest]; [reflexivity |].
  cbn [map py_truthy negb py_slice_last100].
  change (sensor_data_with_defaults record
            :: map sensor_data_with_defaults rest)
    with (map sensor_data_with_defaults (record :: rest)).
  rewrite last_n_map. unfold try_except, bind, lift.
  rewrite for_records_with_defaults, length_map. reflexivity.
Qed.

Lemma predict_behavior_with_defaults (py_format : json -> string)
  (data : json) (d : state) :
  predict_behavior py_format (json_request (sensor_data_with_defaults data)) d
  = predict_behavior py_format (json_request data) d.
Proof.
  destruct data as [| | | | | kv]; try reflexivity.
  unfold predict_behavior, sensor_data_with_defaults.
  cbv beta iota delta [try_except bind lift json_request get_json].
  cbn [py_get]. rewrite lookup_update_same.
  fold (or_default (JObj []) (lookup "sensorData" kv)).
  rewrite detect_accident_with_defaults.
  destruct (or_default (JObj []) (lookup "sensorData" kv))
    as [| | | | | sensor]; try reflexivity.
  unfold with_defaults. cbn [py_get].
  repeat (rewrite lookup_update_same
          || rewrite lookup_update_other by reflexivity).
  rewrite !magnitude_sq_with_defaults.
  rewrite !py_get_vector_with_defaults by (simpl; auto).
  reflexivity.
Qed.

Lemma field_with_defaults (kv : list (string * json)) (k : string)
  (default : json) :
  In (k, default)
     [("speed", JNum 0); ("heartRate", JNum 75); ("oxygenLevel", JNum 98)] ->
  field k (with_defaults (JObj kv)) = Some (or_default default (lookup k kv)).
Proof.
  intro Hin. unfold with_defaults. cbn [field].
  destruct Hin as [H | [H | [H | []]]]; injection H as <- <-;
    repeat (rewrite lookup_update_same
            || rewrite lookup_update_other by reflexivity);
    reflexivity.
Qed.

(** C2: a field absent from the reading given to accident detection is
    read as its default (accelerometer 0, 0, -9.8; gyroscope 0, 0, 0;
    speed 0; heartRate 75; oxygenLevel 98): the features of the empty
    reading are the defaults, and writing the defaults out changes neither
    the features nor the result of the detection; the handlers and the
    risk assessment read the same defaults, so their answers do not change
    either. *)
Theorem absent_fields_take_defaults :
  extract_features (JObj [])
  = Ok [JNum 0; JNum 0; JNum (-9.8); JNum 0; JNum 0; JNum 0;
        JNum 0; JNum 75; JNum 98]
  /\ with_defaults (JObj [])
     = JObj [("oxygenLevel", JNum 98); ("heartRate", JNum 75);
             ("speed", JNum 0);
             ("gyroscope",
              JObj [("z", JNum 0); ("y", JNum 0); ("x", JNum 0)]);
             ("accelerometer",
              JObj [("z", JNum (-9.8)); ("y", JNum 0); ("x", JNum 0)])]
  /\ (forall kv k default,
         In (k, default)
            [("speed", JNum 0); ("heartRate", JNum 75);
             ("oxygenLevel", JNum 98)] ->
         field k (with_defaults (JObj kv))
         = Some (or_default default (lookup k kv)))
  /\ (forall sensor_data,
         extract_features (with_defaults sensor_data)
         = extract_features sensor_data)
  /\ (forall sensor_data d,
         AccidentDetector.detect_accident (with_defaults sensor_data) d
         = AccidentDetector.detect_accident sensor_data d)
  /\ (forall data d,
         analyze_emergency (json_request (sensor_data_with_defaults data)) d
         = analyze_emergency (json_request data) d)
  /\ (forall history d,
         AccidentDetector.assess_driving_risk
           (JArr (map sensor_data_with_defaults history)) d
         = AccidentDetector.assess_driving_risk (JArr history) d)
  /\ (forall py_format data d,
         predict_behavior py_format
           (json_request (sensor_data_with_defaults data)) d
         = predict_behavior py_format (json_request data) d).
Proof.
  repeat split.
  - apply field_with_defaults.
  - apply extract_features_with_defaults.
  - apply detect_accident_with_defaults.
  - apply analyze_emergency_with_defaults.
  - apply assess_with_defaults.
  - apply predict_behavior_with_defaults.
Qed.

(** * Further properties of the detector and of the routes *)

(** ** Risk labels *)

Ltac split_tests :=
  repeat match goal with
         | |- context [Qltb ?a ?b] =>
             let E := fresh "E" in
             destruct (Qltb a b) eqn:E;
             [apply Qltb_true in E | apply Qltb_false in E]
         | |- context [np_sqrt_gt ?m ?t] =>
             let E := fresh "E" in
             destruct (np_sqrt_gt m t) eqn:E
         end.

(** X1: [_generate_risk_labels] returns one label per row, and every
    label is a valid index into [['low', 'medium', 'high']], the list
    [detect_accident] indexes with the prediction of the model fitted on
    these labels. *)
Theorem generated_risk_labels_index_levels (X : list Row) :
  List.length (_generate_risk_labels X) = List.length X
  /\ Forall (fun label =>
               exists level,
                 py_index ["low"; "medium"; "high"] label = Ok level)
       (_generate_risk_labels X).
Proof.
  unfold _generate_risk_labels. split; [apply length_map |].
  apply Forall_forall. intros label Hin.
  apply in_map_iff in Hin as (row & <- & _).
  unfold risk_label.
  repeat match goal with
         | |- context [if ?b then _ else _] => destruct b
         end; eexists; reflexivity.
Qed.

(** X2: with the same acceleration and rotation, a row that is at least
    as fast, with a heart rate at least as high and an oxygen level at
    most as high, gets a label at least as high. *)
Theorem risk_label_monotone (row row' : Row) :
  (accel_x row, accel_y row, accel_z row)
  = (accel_x row', accel_y row', accel_z row') ->
  (gyro_x row, gyro_y row, gyro_z row)
  = (gyro_x row', gyro_y row', gyro_z row') ->
  speed row <= speed row' ->
  heart_rate row <= heart_rate row' ->
  oxygen_level row' <= oxygen_level row ->
  (risk_label row <= risk_label row')%Z.
Proof.
  intros Ha Hg Hs Hh Ho.
  injection Ha as Hax Hay Haz. injection Hg as Hgx Hgy Hgz.
  unfold risk_label. rewrite Hax, Hay, Haz, Hgx, Hgy, Hgz.
  cbv zeta. split_tests; cbn; try lia; exfalso; Lqa.lra.
Qed.

Lemma risk_label_monotone_witness :
  (risk_label city_row <= risk_label motorway_row)%Z.
Proof.
  apply (risk_label_monotone city_row motorway_row).
  - reflexivity.
  - reflexivity.
  - discriminate.
  - discriminate.
  - discriminate.
Defined.

(** X3: vital signs alone never raise the label: a row at 60 km/h or
    less, with an acceleration norm of at most 10 and a rotation norm of at
    most 1, is labelled low whatever the heart rate and the oxygen level. *)
Theorem calm_row_labelled_low (row : Row) :
  speed row <= 60 ->
  accel_x row * accel_x row + accel_y row * accel_y row
  + accel_z row * accel_z row <= 100 ->
  gyro_x row * gyro_x row + gyro_y row * gyro_y row
  + gyro_z row * gyro_z row <= 1 ->
  risk_label row = 0%Z.
Proof.
  intros Hs Ha Hg. unfold risk_label, np_sqrt_gt. cbv zeta.
  set (a := accel_x row * accel_x row + accel_y row * accel_y row
            + accel_z row * accel_z row) in *.
  set (g := gyro_x row * gyro_x row + gyro_y row * gyro_y row
            + gyro_z row * gyro_z row) in *.
  change (12 * 12) with 144. change (10 * 10) with 100.
  change (2 * 2) with 4. change (1 * 1) with 1.
  split_tests; cbn; try reflexivity; exfalso; Lqa.lra.
Qed.

Lemma calm_row_labelled_low_witness : risk_label city_row = 0%Z.
Proof.
  apply (calm_row_labelled_low city_row); discriminate.
Defined.

(** ** Safety recommendations *)

(** X4: a risk level that is none of low, medium and high gets the
    recommendations of the medium level, and no level gets an empty
    list. *)
Theorem unknown_level_recommendations (risk_level : string) :
  ~ In risk_level ["low"; "medium"; "high"] ->
  _get_safety_recommendations risk_level
  = _get_safety_recommendations "medium"
  /\ forall level, _get_safety_recommendations level <> [].
Proof.
  intro Hnot. split.
  - unfold _get_safety_recommendations.
    destruct (String.eqb_spec risk_level "low") as [-> | _];
      [exfalso; apply Hnot; simpl; auto |].
    destruct (String.eqb_spec risk_level "medium") as [-> | _];
      [reflexivity |].
    destruct (String.eqb_spec risk_level "high") as [-> | _];
      [exfalso; apply Hnot; simpl; auto | reflexivity].
  - intro level. unfold _get_safety_recommendations.
    destruct (String.eqb level "low"); [discriminate |].
    destruct (String.eqb level "medium"); [discriminate |].
    destruct (String.eqb level "high"); discriminate.
Qed.

Lemma unknown_level_recommendations_witness :
  _get_safety_recommendations "severe"
  = _get_safety_recommendations "medium"
  /\ forall level, _get_safety_recommendations level <> [].
Proof.
  apply (unknown_level_recommendations "severe").
  simpl. intros [H | [H | [H | []]]]; discriminate H.
Defined.

(** ** Readings of the wrong shape *)

(** X5: a reading that is no JSON object, or whose accelerometer or
    gyroscope is given and is no JSON object, is answered by
    [detect_accident] with an error dict, whatever the state of the
    detector: the failing [.get] is caught inside the method. *)
Theorem detection_rejects_misshapen_reading (d : state) (sensor_data : json) :
  well_shaped_reading sensor_data = false ->
  exists msg,
    fst (AccidentDetector.detect_accident sensor_data d)
    = Ok (JObj [("error", JStr msg)]).
Proof.
  intro Hshape.
  unfold AccidentDetector.detect_accident, try_except, bind, lift, self, ret.
  destruct (is_trained d); cbn [negb]; [| eexists; reflexivity].
  assert (Hraise : exists e, extract_features sensor_data = Raise e).
  { destruct sensor_data as [| | | | | kv];
      try (eexists; reflexivity).
    unfold well_shaped_reading, absent_or in Hshape.
    unfold extract_features, get2. cbn [py_get rbind].
    destruct (lookup "accelerometer" kv) as [[| | | | | akv] |];
      cbn [py_get rbind]; try (eexists; reflexivity);
      cbn [is_object andb] in Hshape;
      (destruct (lookup "gyroscope" kv) as [[| | | | | gkv] |];
       cbn [py_get rbind]; try (eexists; reflexivity);
       discriminate Hshape). }
  destruct Hraise as [e ->]. unfold error_dict. eexists. reflexivity.
Qed.

Lemma detection_rejects_misshapen_reading_witness :
  exists msg,
    fst (AccidentDetector.detect_accident flat_reading sample_detector)
    = Ok (JObj [("error", JStr msg)]).
Proof.
  apply (detection_rejects_misshapen_reading sample_detector flat_reading).
  reflexivity.
Defined.

(** X6: in a successful result an accident is reported only above a
    probability of 0.4 and always above 0.7, so the confidence, which is
    the probability of the reported outcome, is never below 0.3. *)
Theorem detection_confidence_floor (d : state) (sensor_data : json) :
  exists r,
    fst (AccidentDetector.detect_accident sensor_data d) = Ok r
    /\ (successful r = true ->
        exists p c detected,
          field "accident_probability" r = Some (JNum p)
          /\ field "confidence" r = Some (JNum c)
          /\ field "accident_detected" r = Some (JBool detected)
          /\ (detected = true -> 0.4 < p)
          /\ (0.7 < p -> detected = true)
          /\ 0.3 <= c).
Proof.
  destruct (detect_accident_cases d sensor_data)
    as [(msg & Heq) | (row & level & Heq)].
  - rewrite Heq. eexists. split; [reflexivity | discriminate].
  - cbv zeta in Heq. destruct Heq as (_ & _ & Heq). rewrite Heq.
    eexists. split; [reflexivity |]. intros _.
    do 3 eexists. repeat (split; [reflexivity |]).
    set (p := predict_proba (accident_model d) (transform (scaler d) row)).
    destruct (Qltb 0.7 p) eqn:E7;
      [apply Qltb_true in E7 | apply Qltb_false in E7];
      (destruct (Qltb 0.4 p) eqn:E4;
       [apply Qltb_true in E4 | apply Qltb_false in E4]);
      destruct (outlier_predict _ _ =? -1)%Z; cbn [orb andb];
      repeat split; intros; try reflexivity; try discriminate;
      try assumption; Lqa.lra.
Qed.

(** ** The risk assessment on arbitrary histories *)

(** A loop that meets an item that is not a JSON object raises. *)
Lemma for_records_raises (records : list json) (record : json) :
  In record records ->
  (forall kv, record <> JObj kv) ->
  forall acc, exists e, for_records records acc = Raise e.
Proof.
  intros Hin Hnot.
  induction records as [| r rest IH]; [destruct Hin |].
  intros [rf t]. cbn [for_records].
  destruct Hin as [-> | Hin].
  - exists AttributeError.
    destruct record as [| | | | | kv]; try reflexivity.
    destruct (Hnot kv eq_refl).
  - destruct (record_step r (rf, t)) as [acc' | e]; cbn [rbind].
    + apply IH. exact Hin.
    + exists e. reflexivity.
Qed.


(** The clamped score exceeds [50 + 10 c] exactly when the mean penalty
    per record exceeds [c]. *)
Lemma clamp_score_gt (total_score : Z) (n : nat) (c : Z) :
  (0 < n)%nat -> (0 <= c < 5)%Z ->
  inject_Z (50 + 10 * c) < clamp_score total_score n
  <-> (c * Z.of_nat n < total_score)%Z.
Proof.
  intros Hn Hc. unfold clamp_score.
  set (N := inject_Z (Z.of_nat n)).
  assert (HN : 0 < N).
  { unfold N. change 0 with (inject_Z 0). rewrite <- Zlt_Qlt. lia. }
  set (q := inject_Z total_score / N).
  assert (Hq : q * N == inject_Z total_score).
  { unfold q. rewrite Qmult_comm. apply Qmult_div_r. intro H0.
    rewrite H0 in HN. revert HN. apply Qlt_irrefl. }
  assert (Ht : inject_Z (50 + 10 * c) == 50 + 10 * inject_Z c).
  { rewrite inject_Z_plus, inject_Z_mult. reflexivity. }
  assert (Hc0 : 0 <= inject_Z c)
    by (change 0 with (inject_Z 0); rewrite <- Zle_Qle; lia).
  assert (Hc5 : inject_Z c < 5)
    by (change 5 with (inject_Z 5); rewrite <- Zlt_Qlt; lia).
  rewrite Q.min_glb_lt_iff, Q.max_lt_iff, Ht.
  rewrite Zlt_Qlt, inject_Z_mult. fold N. rewrite <- Hq.
  split.
  - intros [_ [H | H]]; [exfalso; Lqa.lra | Lqa.nra].
  - intro H. split; [Lqa.lra |]. right.
    assert (inject_Z c < q) by Lqa.nra. Lqa.lra.
Qed.

Lemma map_JStr_injective (a b : list string) :
  map JStr a = map JStr b -> a = b.
Proof.
  revert b. induction a as [| x a IH]; intros [| y b] H; try discriminate H.
  - reflexivity.
  - cbn [map] in H. injection H as -> H. f_equal. apply IH. exact H.
Qed.

(** X7: whatever the driving history, the risk factors of a result are
    distinct and are among the three the assessment knows, so there are at
    most three, however many records triggered them. *)
Theorem assess_risk_factors_distinct (d : state) (history : json) :
  exists r,
    fst (AccidentDetector.assess_driving_risk history d) = Ok r
    /\ forall factors,
        field "risk_factors" r = Some (jstrs factors) ->
        NoDup factors
        /\ incl factors known_risk_factors
        /\ (List.length factors <= 3)%nat.
Proof.
  destruct (py_truthy history) eqn:Ht.
  - destruct (AccidentDetector.assess_driving_risk history d) as [[r | e] d']
      eqn:Hrun.
    + exists r. split; [reflexivity |]. intros factors Hf.
      destruct (successful r) eqn:Hs.
      * destruct (assess_success d history r Ht) as
          (records & rf & total & _ & Hloop & _ & Hr);
          [rewrite Hrun; reflexivity | exact Hs |].
        cbv zeta in Hr. subst r. cbn in Hf. injection Hf as Hf.
        apply map_JStr_injective in Hf. subst factors.
        apply for_records_appends in Hloop as (extras & -> & Hin & _).
        assert (Hnodup : NoDup (py_list_set ([] ++ extras)))
          by apply NoDup_nodup.
        assert (Hincl : incl (py_list_set ([] ++ extras)) known_risk_factors).
        { intros f Hfin. apply nodup_In in Hfin. apply Hin. exact Hfin. }
        split; [exact Hnodup |]. split; [exact Hincl |].
        apply (NoDup_incl_length Hnodup Hincl).
      * destruct (assess_truthy d history Ht)
          as [(e & Heq) | (rf & total & n & Heq)];
          cbv zeta in Heq; rewrite Heq in Hrun; injection Hrun as <- _.
        -- discriminate Hf.
        -- discriminate Hs.
    + destruct (assess_truthy d history Ht)
        as [(e' & Heq) | (rf & total & n & Heq)];
        cbv zeta in Heq; rewrite Heq in Hrun; discriminate Hrun.
  - rewrite (assess_falsy d history Ht). eexists. split; [reflexivity |].
    intros factors Hf. discriminate Hf.
Qed.

(** X8: past the guard, whatever the records hold, a successful result
    has a score between 50 and 100 that agrees with its level: at most 60
    for low, between 60 and 80 for medium, at least 80 for high. *)
Theorem assess_score_agrees_with_level (d : state) (history r : json) :
  py_truthy history = true ->
  fst (AccidentDetector.assess_driving_risk history d) = Ok r ->
  successful r = true ->
  exists s level,
    field "risk_score" r = Some (JNum s)
    /\ field "risk_level" r = Some (JStr level)
    /\ 50 <= s <= 100
    /\ ((level = "low" /\ s <= 60)
        \/ (level = "medium" /\ 60 <= s <= 80)
        \/ (level = "high" /\ 80 <= s)).
Proof.
  intros Ht Hr Hs.
  destruct (assess_success d history r Ht Hr Hs)
    as (records & rf & total & _ & Hloop & _ & ->).
  apply for_records_appends in Hloop as (_ & _ & _ & Htotal).
  set (score := clamp_score total (List.length records)).
  pose proof (clamp_score_range total (List.length records)) as [_ Hhi].
  pose proof (clamp_score_baseline total (List.length records)
                ltac:(lia)) as Hlo.
  fold score in Hhi, Hlo.
  assert (Hround : forall k : Z,
             (inject_Z k <= score * 10 -> inject_Z k / 10 <= py_round1 score)
             /\ (score * 10 <= inject_Z k -> py_round1 score <= inject_Z k / 10)).
  { intro k. split; [apply py_round1_lower | apply py_round1_upper]. }
  exists (py_round1 score), (level_of_score score).
  split; [reflexivity |]. split; [reflexivity |].
  assert (H50 : 50 <= py_round1 score).
  { apply (Qle_trans _ (inject_Z 500 / 10)); [discriminate |].
    apply Hround. change (inject_Z 500) with 500. Lqa.lra. }
  assert (H100 : py_round1 score <= 100).
  { apply (Qle_trans _ (inject_Z 1000 / 10)); [| discriminate].
    apply Hround. change (inject_Z 1000) with 1000. Lqa.lra. }
  split; [split; assumption |].
  unfold level_of_score.
  destruct (Qltb 80 score) eqn:E80;
    [apply Qltb_true in E80 | apply Qltb_false in E80].
  - right. right. split; [reflexivity |].
    apply (Qle_trans _ (inject_Z 800 / 10)); [discriminate |].
    apply Hround. change (inject_Z 800) with 800. Lqa.lra.
  - destruct (Qltb 60 score) eqn:E60;
      [apply Qltb_true in E60 | apply Qltb_false in E60].
    + right. left. split; [reflexivity |]. split.
      * apply (Qle_trans _ (inject_Z 600 / 10)); [discriminate |].
        apply Hround. change (inject_Z 600) with 600. Lqa.lra.
      * apply (Qle_trans _ (inject_Z 800 / 10)); [| discriminate].
        apply Hround. change (inject_Z 800) with 800. Lqa.lra.
    + left. split; [reflexivity |].
      apply (Qle_trans _ (inject_Z 600 / 10)); [| discriminate].
      apply Hround. change (inject_Z 600) with 600. Lqa.lra.
Qed.

Lemma assess_score_agrees_with_level_witness :
  exists r,
    fst (AccidentDetector.assess_driving_risk (JArr sample_history)
           sample_detector) = Ok r
    /\ exists s level,
        field "risk_score" r = Some (JNum s)
        /\ field "risk_level" r = Some (JStr level)
        /\ 50 <= s <= 100
        /\ ((level = "low" /\ s <= 60)
            \/ (level = "medium" /\ 60 <= s <= 80)
            \/ (level = "high" /\ 80 <= s)).
Proof.
  eexists. split; [reflexivity |].
  apply (assess_score_agrees_with_level sample_detector (JArr sample_history));
    reflexivity.
Defined.

(** X9: a history with an item that is not a JSON object among its last
    hundred gets an error dict, whatever its other records hold. *)
Theorem assess_rejects_non_object_record (d : state) (history : list json)
  (record : json) :
  In record (last_n 100 history) ->
  (forall kv, record <> JObj kv) ->
  exists e,
    fst (AccidentDetector.assess_driving_risk (JArr history) d)
    = Ok (error_dict e).
Proof.
  intros Hin Hnot.
  destruct (for_records_raises (last_n 100 history) record Hin Hnot ([], 0%Z))
    as (e & Hraise).
  exists e. unfold AccidentDetector.assess_driving_risk.
  destruct history as [| r0 rest]; [destruct Hin |].
  cbn [py_truthy negb py_slice_last100].
  unfold try_except, bind, lift, ret. rewrite Hraise. reflexivity.
Qed.

Lemma assess_rejects_non_object_record_witness :
  exists e,
    fst (AccidentDetector.assess_driving_risk (JArr broken_history)
           sample_detector)
    = Ok (error_dict e).
Proof.
  apply (assess_rejects_non_object_record sample_detector broken_history
           (JStr "lost")).
  - right. left. reflexivity.
  - intros kv H. discriminate H.
Defined.

(** X10: the risk level is decided by the mean penalty of the records
    assessed: high exactly when the total of the penalties exceeds three
    per record, low exactly when it does not exceed one per record, and
    medium in between. *)
Theorem risk_level_by_mean_penalty (d : state) (history : list json)
  (risk_factors : list string) (total_score : Z) :
  history <> [] ->
  for_records (last_n 100 history) ([], 0%Z) = Ok (risk_factors, total_score) ->
  exists r level,
    fst (AccidentDetector.assess_driving_risk (JArr history) d) = Ok r
    /\ field "risk_level" r = Some (JStr level)
    /\ In level ["low"; "medium"; "high"]
    /\ (level = "high"
        <-> (3 * Z.of_nat (List.length (last_n 100 history)) < total_score)%Z)
    /\ (level = "low"
        <-> (total_score <= Z.of_nat (List.length (last_n 100 history)))%Z).
Proof.
  intros Hne Hloop.
  assert (Hn : (0 < List.length (last_n 100 history))%nat).
  { rewrite last_n_length. destruct history; [congruence | simpl; lia]. }
  set (n := List.length (last_n 100 history)) in *.
  pose proof (clamp_score_gt total_score n 3 Hn ltac:(lia)) as H3.
  pose proof (clamp_score_gt total_score n 1 Hn ltac:(lia)) as H1.
  change (inject_Z (50 + 10 * 3)) with 80 in H3.
  change (inject_Z (50 + 10 * 1)) with 60 in H1.
  unfold AccidentDetector.assess_driving_risk.
  destruct history as [| r0 rest]; [congruence |].
  cbn [py_truthy negb py_slice_last100].
  unfold try_except, bind, lift, ret. fold n. rewrite Hloop.
  destruct (Nat.eqb_spec n 0) as [E | _]; [lia |].
  cbn [fst]. do 2 eexists. split; [reflexivity |].
  split; [reflexivity |].
  split; [apply level_of_score_enum |].
  unfold level_of_score.
  destruct (Qltb 80 (clamp_score total_score n)) eqn:E80;
    [apply Qltb_true in E80 | apply Qltb_false in E80];
    [| destruct (Qltb 60 (clamp_score total_score n)) eqn:E60;
       [apply Qltb_true in E60 | apply Qltb_false in E60]].
  - apply H3 in E80. split; split; intro H; try reflexivity;
      try discriminate H; lia.
  - apply H1 in E60.
    assert (~ (3 * Z.of_nat n < total_score)%Z).
    { intro H. apply H3 in H. revert H. apply Qle_not_lt. exact E80. }
    split; split; intro H'; try reflexivity; try discriminate H'; lia.
  - assert (~ (1 * Z.of_nat n < total_score)%Z).
    { intro H. apply H1 in H. revert H. apply Qle_not_lt. exact E60. }
    split; split; intro H'; try reflexivity; try discriminate H'; lia.
Qed.

Lemma risk_level_by_mean_penalty_witness :
  exists r level,
    fst (AccidentDetector.assess_driving_risk (JArr sample_history)
           sample_detector) = Ok r
    /\ field "risk_level" r = Some (JStr level)
    /\ In level ["low"; "medium"; "high"]
    /\ (level = "high"
        <-> (3 * Z.of_nat (List.length (last_n 100 sample_history)) < 18)%Z)
    /\ (level = "low"
        <-> (18 <= Z.of_nat (List.length (last_n 100 sample_history)))%Z).
Proof.
  apply (risk_level_by_mean_penalty sample_detector sample_history
           ["Excessive speeding detected";
            "Hard braking/acceleration detected"] 18).
  - discriminate.
  - reflexivity.
Defined.

(** ** The routes *)

Lemma assess_returns (d : state) (driving_history : json) :
  exists kv,
    AccidentDetector.assess_driving_risk driving_history d
    = (Ok (JObj kv), d).
Proof.
  destruct (py_truthy driving_history) eqn:Ht.
  - destruct (assess_truthy d driving_history Ht)
      as [(e & Heq) | (rf & total & n & Heq)]; cbv zeta in Heq;
      eexists; exact Heq.
  - eexists. apply assess_falsy. exact Ht.
Qed.

(** One step of the symbolic run of a route: a call of the detector is
    replaced by the dict it returns, a fallible read or a test is split. *)
Ltac run_route_step :=
  first
    [ match goal with
      | |- context [AccidentDetector.detect_accident ?sd ?d] =>
          let kv := fresh "analysis" in
          let Hd := fresh "Hd" in
          destruct (detect_accident_returns d sd) as (kv & Hd);
          rewrite Hd; clear Hd
      end
    | match goal with
      | |- context [AccidentDetector.assess_driving_risk ?h ?d] =>
          let kv := fresh "assessment" in
          let Hd := fresh "Hd" in
          destruct (assess_returns d h) as (kv & Hd);
          rewrite Hd; clear Hd
      end
    | match goal with
      | |- context [match ?r with Ok _ => _ | Raise _ => _ end] =>
          lazymatch r with
          | context [match _ with Ok _ => _ | Raise _ => _ end] => fail
          | _ => destruct r eqn:?
          end
      end
    | match goal with
      | |- context [if ?b then _ else _] => destruct b eqn:?
      end ].

Ltac run_route :=
  repeat (cbv beta iota; cbn [py_get py_get_none]; run_route_step).

(** X11: [predict_behavior] calls the detector and drops its answer:
    the response is the same for every detector, trained or not. *)
Theorem predict_behavior_ignores_detector (py_format : json -> string)
  (request : Request) (d d' : state) :
  fst (predict_behavior py_format request d)
  = fst (predict_behavior py_format request d').
Proof.
  unfold predict_behavior, try_except, bind, lift, ret.
  run_route; reflexivity.
Qed.

(** X12: in a 200 response of [predict_behavior] there is one alert per
    risky behaviour, at most three of them, and the safety score is 100
    minus 20 per behaviour: it never falls below 40, so the floor at 0 in
    the code is never reached. *)
Theorem predict_behavior_safety_score (py_format : json -> string)
  (request : Request) (d : state) (payload : json) :
  fst (predict_behavior py_format request d) = Ok (payload, 200%Z) ->
  exists behaviors alerts,
    field "riskyBehaviors" payload = Some (jstrs behaviors)
    /\ field "alerts" payload = Some (jstrs alerts)
    /\ List.length alerts = List.length behaviors
    /\ (List.length behaviors <= 3)%nat
    /\ field "safetyScore" payload
       = Some (JNum (inject_Z (100 - 20 * Z.of_nat (List.length behaviors)))).
Proof.
  unfold predict_behavior, try_except, bind, lift, ret.
  run_route; cbn [fst]; intro H; try discriminate H;
    injection H as <-; do 2 eexists;
    (split; [reflexivity |]); (split; [reflexivity |]);
    (split; [reflexivity |]); (split; [simpl; lia | reflexivity]).
Qed.

Lemma predict_behavior_safety_score_witness :
  exists payload,
    fst (predict_behavior (fun _ => "90") (json_request hasty_body)
           sample_detector) = Ok (payload, 200%Z)
    /\ exists behaviors alerts,
        field "riskyBehaviors" payload = Some (jstrs behaviors)
        /\ field "alerts" payload = Some (jstrs alerts)
        /\ List.length alerts = List.length behaviors
        /\ (List.length behaviors <= 3)%nat
        /\ field "safetyScore" payload
           = Some (JNum (inject_Z
                           (100 - 20 * Z.of_nat (List.length behaviors)))).
Proof.
  eexists. split; [reflexivity |].
  apply (predict_behavior_safety_score (fun _ => "90")
           (json_request hasty_body) sample_detector).
  reflexivity.
Defined.

(** X13: in a 200 response of [analyze_emergency] the urgency is
    critical exactly when the recommended action is the immediate medical
    attention, which is exactly when the high impact is among the risk
    factors; the action is to monitor the situation exactly when no risk
    factor is reported; and there are at most three risk factors. *)
Theorem analyze_emergency_action_matches_urgency (request : Request)
  (d : state) (payload : json) :
  fst (analyze_emergency request d) = Ok (payload, 200%Z) ->
  exists action urgency factors,
    field "recommendedAction" payload = Some (JStr action)
    /\ field "urgency" payload = Some (JStr urgency)
    /\ field "riskFactors" payload = Some (jstrs factors)
    /\ (urgency = "critical"
        <-> action = "Immediate medical attention required")
    /\ (urgency = "critical" <-> In "High impact detected" factors)
    /\ (action = "Monitor situation" <-> factors = [])
    /\ (List.length factors <= 3)%nat.
Proof.
  unfold analyze_emergency, try_except, bind, lift, ret.
  run_route; cbn [fst]; intro H; try discriminate H;
    injection H as <-; do 3 eexists;
    (split; [reflexivity |]); (split; [reflexivity |]);
    (split; [reflexivity |]);
    cbn [app List.length In];
    repeat split; intros; try reflexivity; try discriminate; try lia;
    try (exfalso; intuition discriminate); auto.
Qed.

Lemma analyze_emergency_action_matches_urgency_witness :
  exists payload,
    fst (analyze_emergency (json_request anxious_body) sample_detector)
    = Ok (payload, 200%Z)
    /\ exists action urgency factors,
        field "recommendedAction" payload = Some (JStr action)
        /\ field "urgency" payload = Some (JStr urgency)
        /\ field "riskFactors" payload = Some (jstrs factors)
        /\ (urgency = "critical"
            <-> action = "Immediate medical attention required")
        /\ (urgency = "critical" <-> In "High impact detected" factors)
        /\ (action = "Monitor situation" <-> factors = [])
        /\ (List.length factors <= 3)%nat.
Proof.
  eexists. split; [reflexivity |].
  apply (analyze_emergency_action_matches_urgency (json_request anxious_body)
           sample_detector).
  reflexivity.
Defined.

(** X14: when the detection fails, [analyze_emergency] still answers
    200, with an accident probability of 0, a confidence of 0.5 and a
    medium urgency, and never with the high impact among the risk
    factors. *)
Theorem analyze_emergency_after_failed_detection (d : state)
  (data sensor : list (string * json)) (analysis : json) :
  py_get (JObj data) "sensorData" (JObj []) = Ok (JObj sensor) ->
  absent_or is_num "heartRate" sensor = true ->
  absent_or is_num "oxygenLevel" sensor = true ->
  fst (AccidentDetector.detect_accident (JObj sensor) d) = Ok analysis ->
  successful analysis = false ->
  exists payload factors,
    fst (analyze_emergency (json_request (JObj data)) d) = Ok (payload, 200%Z)
    /\ field "accidentProbability" payload = Some (JNum 0)
    /\ field "confidence" payload = Some (JNum 0.5)
    /\ field "urgency" payload = Some (JStr "medium")
    /\ field "riskFactors" payload = Some (jstrs factors)
    /\ ~ In "High impact detected" factors.
Proof.
  intros Hsd Hhr Hox Hdet Hfail.
  destruct (detect_accident_cases d (JObj sensor))
    as [(msg & Heq) | (row & level & Heq)].
  - rewrite Heq in Hdet. cbn [fst] in Hdet. injection Hdet as <-.
    cbn [py_get] in Hsd. injection Hsd as Hsd.
    unfold absent_or, is_num in Hhr, Hox.
    unfold analyze_emergency, json_request, try_except, bind, lift, ret.
    cbn [get_json py_get]. rewrite Hsd, Heq.
    unfold py_get_none, py_gt, py_lt.
    cbn [py_get lookup String.eqb Ascii.eqb Bool.eqb py_truthy].
    destruct (lookup "heartRate" sensor) as [hr |];
      [destruct (as_num hr) as [h |]; [| discriminate] | cbn [as_num]];
      (destruct (lookup "oxygenLevel" sensor) as [ox |];
       [destruct (as_num ox) as [o |]; [| discriminate] | cbn [as_num]]);
      repeat match goal with
             | |- context [Qltb ?a ?b] => destruct (Qltb a b)
             end;
      do 2 eexists; cbn [fst];
      (split; [reflexivity |]); (split; [reflexivity |]);
      (split; [reflexivity |]); (split; [reflexivity |]);
      (split; [reflexivity |]);
      simpl; intuition discriminate.
  - cbv zeta in Heq. destruct Heq as (_ & _ & Heq).
    rewrite Heq in Hdet. cbn [fst] in Hdet. injection Hdet as <-.
    discriminate Hfail.
Qed.

Lemma analyze_emergency_after_failed_detection_witness :
  exists payload factors,
    fst (analyze_emergency
           (json_request (JObj [("sensorData", bad_speed_reading)]))
           sample_detector) = Ok (payload, 200%Z)
    /\ field "accidentProbability" payload = Some (JNum 0)
    /\ field "confidence" payload = Some (JNum 0.5)
    /\ field "urgency" payload = Some (JStr "medium")
    /\ field "riskFactors" payload = Some (jstrs factors)
    /\ ~ In "High impact detected" factors.
Proof.
  apply (analyze_emergency_after_failed_detection sample_detector
           [("sensorData", bad_speed_reading)] [("speed", JStr "fast")]
           (error_dict ValueError));
    reflexivity.
Defined.

(** X15: the risk route answers 200 exactly when the request body is a
    JSON object: failures of the assessment and of the detection never
    reach the status, only an unreadable body or a body of another type
    gives 500. *)
Theorem assess_route_status (request : Request) (d : state) :
  exists payload status,
    fst (assess_driving_risk request d) = Ok (payload, status)
    /\ (status = 200%Z <-> exists kv, get_json request = Ok (JObj kv))
    /\ (status = 500%Z <-> forall kv, get_json request <> Ok (JObj kv)).
Proof.
  unfold assess_driving_risk, try_except, bind, lift, ret.
  destruct (get_json request) as [[| | | | | kv] | e]; cbv beta iota;
    cbn [py_get];
    try (do 2 eexists; split; [reflexivity |];
         split; split;
         [ discriminate | intros [kv H]; discriminate H
         | intros _ kv H; discriminate H | reflexivity ]).
  run_route; cbn [py_get fst]; do 2 eexists; (split; [reflexivity |]);
    (split; split;
     [ intros _; eexists; reflexivity | reflexivity
     | discriminate | intro H; destruct (H kv eq_refl) ]).
Qed.

(** X16: an assessment that fails is hidden by the risk route: the
    response is a 200 with the default score 50, the default level medium
    and no risk factor and no recommendation, as for an empty history. *)
Theorem assess_route_hides_failed_assessment (d : state)
  (data : list (string * json)) (history assessment : json) :
  py_get (JObj data) "drivingHistory" (JArr []) = Ok history ->
  fst (AccidentDetector.assess_driving_risk history d) = Ok assessment ->
  successful assessment = false ->
  exists payload,
    fst (assess_driving_risk (json_request (JObj data)) d)
    = Ok (payload, 200%Z)
    /\ field "riskScore" payload = Some (JNum 50)
    /\ field "riskLevel" payload = Some (JStr "medium")
    /\ field "riskFactors" payload = Some (JArr [])
    /\ field "recommendations" payload = Some (JArr []).
Proof.
  intros Hh Hrun Hfail.
  cbn [py_get] in Hh. injection Hh as Hh.
  assert (Herr : exists e,
             AccidentDetector.assess_driving_risk history d
             = (Ok (error_dict e), d)).
  { destruct (py_truthy history) eqn:Ht.
    - destruct (assess_truthy d history Ht)
        as [(e & Heq) | (rf & total & n & Heq)]; cbv zeta in Heq.
      + exists e. exact Heq.
      + rewrite Heq in Hrun. cbn [fst] in Hrun. injection Hrun as <-.
        discriminate Hfail.
    - rewrite (assess_falsy d history Ht) in Hrun. cbn [fst] in Hrun.
      injection Hrun as <-. discriminate Hfail. }
  destruct Herr as (e & Herr).
  unfold assess_driving_risk, json_request, try_except, bind, lift, ret.
  cbn [get_json py_get]. rewrite Hh, Herr. unfold error_dict.
  run_route; cbn [py_get lookup String.eqb Ascii.eqb Bool.eqb fst];
    eexists; repeat split.
Qed.

Lemma assess_route_hides_failed_assessment_witness :
  exists payload,
    fst (assess_driving_risk (json_request unreadable_history_body)
           sample_detector) = Ok (payload, 200%Z)
    /\ field "riskScore" payload = Some (JNum 50)
    /\ field "riskLevel" payload = Some (JStr "medium")
    /\ field "riskFactors" payload = Some (JArr [])
    /\ field "recommendations" payload = Some (JArr []).
Proof.
  apply (assess_route_hides_failed_assessment sample_detector
           [("drivingHistory", JArr [JNum 3])] (JArr [JNum 3])
           (error_dict AttributeError));
    reflexivity.
Defined.

(** ** The order of the records *)

(** A step of the loop adds to the accumulators what it adds to empty
    ones. *)
Lemma record_step_shift (record : json) (risk_factors : list string)
  (total_score : Z) :
  record_step record (risk_factors, total_score)
  = match record_step record ([], 0%Z) with
    | Ok (extras, penalty) =>
        Ok ((risk_factors ++ extras)%list, (total_score + penalty)%Z)
    | Raise e => Raise e
    end.
Proof.
  unfold record_step, rbind.
  repeat (cbv beta iota;
          first
            [ match goal with
              | |- context [if ?b then _ else _] => destruct b
              end
            | match goal with
              | |- context [match ?r with Ok _ => _ | Raise _ => _ end] =>
                  lazymatch r with
                  | context [match _ with Ok _ => _ | Raise _ => _ end] => fail
                  | _ => destruct r
                  end
              end ]);
    try reflexivity;
    cbn [app]; rewrite <- ?app_assoc; cbn [app]; rewrite ?app_nil_r;
    apply f_equal; (apply f_equal2; [reflexivity | lia]).
Qed.

Lemma for_records_shift (records : list json) :
  forall (risk_factors : list string) (total_score : Z),
  for_records records (risk_factors, total_score)
  = match for_records records ([], 0%Z) with
    | Ok (extras, penalty) =>
        Ok ((risk_factors ++ extras)%list, (total_score + penalty)%Z)
    | Raise e => Raise e
    end.
Proof.
  induction records as [| record rest IH]; intros rf t; cbn [for_records].
  - rewrite app_nil_r, Z.add_0_r. reflexivity.
  - rewrite (record_step_shift record rf t).
    destruct (record_step record ([], 0%Z)) as [[ex p] | e]; cbn [rbind];
      [| reflexivity].
    rewrite (IH (rf ++ ex)%list (t + p)%Z), (IH ex p).
    destruct (for_records rest ([], 0%Z)) as [[ex' p'] | e]; [| reflexivity].
    rewrite app_assoc. apply f_equal.
    apply f_equal2; [reflexivity | lia].
Qed.

(** The loop over a list, from the step of its head and the loop over its
    tail, both started on empty accumulators. *)
Lemma for_records_cons (record : json) (rest : list json) :
  for_records (record :: rest) ([], 0%Z)
  = match record_step record ([], 0%Z) with
    | Ok (extras, penalty) =>
        match for_records rest ([], 0%Z) with
        | Ok (extras', penalty') =>
            Ok ((extras ++ extras')%list, (penalty + penalty')%Z)
        | Raise e => Raise e
        end
    | Raise e => Raise e
    end.
Proof.
  cbn [for_records].
  destruct (record_step record ([], 0%Z)) as [[ex p] | e]; cbn [rbind];
    [| reflexivity].
  apply for_records_shift.
Qed.

(** Reordering the records permutes the risk factors the loop collects
    and keeps the total of the penalties. *)
Lemma for_records_permutation (records records' : list json) :
  Permutation records records' ->
  forall extras penalty,
    for_records records ([], 0%Z) = Ok (extras, penalty) ->
    exists extras',
      for_records records' ([], 0%Z) = Ok (extras', penalty)
      /\ Permutation extras extras'.
Proof.
  induction 1 as [| x l l' _ IH | x y l | l l' l'' _ IH1 _ IH2];
    intros ex p H.
  - exists ex. split; [exact H | apply Permutation_refl].
  - rewrite for_records_cons in H |- *.
    destruct (record_step x ([], 0%Z)) as [[ex1 p1] | e]; [| discriminate H].
    destruct (for_records l ([], 0%Z)) as [[ex2 p2] | e]; [| discriminate H].
    injection H as <- <-.
    destruct (IH ex2 p2 eq_refl) as (ex2' & -> & Hperm).
    eexists. split; [reflexivity |].
    apply Permutation_app_head. exact Hperm.
  - rewrite !for_records_cons in H |- *.
    destruct (record_step y ([], 0%Z)) as [[ex1 p1] | e]; [| discriminate H].
    destruct (record_step x ([], 0%Z)) as [[ex2 p2] | e]; [| discriminate H].
    destruct (for_records l ([], 0%Z)) as [[ex3 p3] | e]; [| discriminate H].
    injection H as <- <-.
    exists (ex2 ++ ex1 ++ ex3)%list. split.
    + apply f_equal. apply f_equal2; [reflexivity | lia].
    + rewrite !app_assoc. apply Permutation_app_tail.
      apply Permutation_app_comm.
  - destruct (IH1 ex p H) as (ex' & H' & Hp1).
    destruct (IH2 ex' p H') as (ex'' & H'' & Hp2).
    exists ex''. split; [exact H'' |].
    eapply Permutation_trans; eassumption.
Qed.

Lemma last_n_short {A} (n : nat) (l : list A) :
  (List.length l <= n)%nat -> last_n n l = l.
Proof.
  intro H. unfold last_n.
  replace (List.length l - n)%nat with 0%nat by lia. reflexivity.
Qed.

(** X17: for a history of at most a hundred records, the order of the
    records does not matter: two orders succeed or fail together, and give
    the same score, the same level, the same recommendations and the same
    set of risk factors. *)
Theorem assess_order_independent (d : state) (history history' : list json) :
  Permutation history history' ->
  (List.length history <= 100)%nat ->
  exists r r',
    fst (AccidentDetector.assess_driving_risk (JArr history) d) = Ok r
    /\ fst (AccidentDetector.assess_driving_risk (JArr history') d) = Ok r'
    /\ successful r = successful r'
    /\ field "risk_score" r = field "risk_score" r'
    /\ field "risk_level" r = field "risk_level" r'
    /\ field "recommendations" r = field "recommendations" r'
    /\ (forall factors factors',
           field "risk_factors" r = Some (jstrs factors) ->
           field "risk_factors" r' = Some (jstrs factors') ->
           forall f, In f factors <-> In f factors').
Proof.
  intros Hperm Hlen.
  assert (Hlen' : (List.length history' <= 100)%nat)
    by (rewrite <- (Permutation_length Hperm); exact Hlen).
  unfold AccidentDetector.assess_driving_risk.
  destruct history as [| r0 rest].
  { apply Permutation_nil in Hperm. subst history'.
    do 2 eexists. repeat split; intros; try reflexivity; discriminate. }
  destruct history' as [| r0' rest'].
  { apply Permutation_sym, Permutation_nil in Hperm. discriminate Hperm. }
  cbn [py_truthy negb py_slice_last100].
  rewrite !last_n_short by assumption.
  unfold try_except, bind, lift, ret, raise.
  rewrite <- (Permutation_length Hperm).
  change (List.length (r0 :: rest) =? 0)%nat with false. cbv iota.
  destruct (for_records (r0 :: rest) ([], 0%Z)) as [[ex p] | e] eqn:H1.
  - destruct (for_records_permutation _ _ Hperm ex p H1)
      as (ex' & H2 & Hex).
    rewrite H2. cbn [fst]. do 2 eexists.
    split; [reflexivity |]. split; [reflexivity |].
    repeat (split; [reflexivity |]).
    intros factors factors' Hf Hf'. cbn in Hf, Hf'.
    injection Hf as Hf. injection Hf' as Hf'.
    apply map_JStr_injective in Hf, Hf'. subst factors factors'.
    intro f. unfold py_list_set. rewrite !nodup_In.
    split; apply Permutation_in; [exact Hex | apply Permutation_sym, Hex].
  - destruct (for_records (r0' :: rest') ([], 0%Z)) as [[ex' p'] | e'] eqn:H2.
    + destruct (for_records_permutation _ _ (Permutation_sym Hperm) ex' p' H2)
        as (ex & H1' & _).
      rewrite H1' in H1. discriminate H1.
    + cbn [fst]. do 2 eexists.
      split; [reflexivity |]. split; [reflexivity |].
      repeat (split; [reflexivity |]).
      intros factors factors' Hf. discriminate Hf.
Qed.

Lemma assess_order_independent_witness :
  exists r r',
    fst (AccidentDetector.assess_driving_risk (JArr sample_history)
           sample_detector) = Ok r
    /\ fst (AccidentDetector.assess_driving_risk (JArr shuffled_history)
              sample_detector) = Ok r'
    /\ successful r = successful r'
    /\ field "risk_score" r = field "risk_score" r'
    /\ field "risk_level" r = field "risk_level" r'
    /\ field "recommendations" r = field "recommendations" r'
    /\ (forall factors factors',
           field "risk_factors" r = Some (jstrs factors) ->
           field "risk_factors" r' = Some (jstrs factors') ->
           forall f, In f factors <-> In f factors').
Proof.
  apply (assess_order_independent sample_detector sample_history
           shuffled_history).
  - apply perm_swap.
  - simpl. lia.
Defined.

(** X18: when the detection on the current reading fails, the risk route
    reports the current driving as safe, with a medium alert level. *)
Theorem assess_route_safe_after_failed_detection (d : state)
  (data : list (string * json)) (current analysis : json) :
  py_get (JObj data) "currentSensorData" (JObj []) = Ok current ->
  fst (AccidentDetector.detect_accident current d) = Ok analysis ->
  successful analysis = false ->
  exists payload,
    fst (assess_driving_risk (json_request (JObj data)) d)
    = Ok (payload, 200%Z)
    /\ field "currentDrivingStatus" payload
       = Some (JObj [("safe", JBool true); ("alertLevel", JStr "medium")]).
Proof.
  intros Hc Hrun Hfail.
  cbn [py_get] in Hc. injection Hc as Hc.
  destruct (detect_accident_cases d current)
    as [(msg & Heq) | (row & level & Heq)].
  - unfold assess_driving_risk, json_request, try_except, bind, lift, ret.
    cbn [get_json py_get]. rewrite Hc.
    destruct (assess_returns
                d match lookup "drivingHistory" data with
                  | Some v => v
                  | None => JArr []
                  end) as (kv & Hassess).
    rewrite Hassess, Heq.
    cbn [py_get lookup String.eqb Ascii.eqb Bool.eqb py_truthy negb fst].
    eexists. split; reflexivity.
  - cbv zeta in Heq. destruct Heq as (_ & _ & Heq).
    rewrite Heq in Hrun. cbn [fst] in Hrun. injection Hrun as <-.
    discriminate Hfail.
Qed.

Lemma assess_route_safe_after_failed_detection_witness :
  exists payload,
    fst (assess_driving_risk (json_request bad_current_body) sample_detector)
    = Ok (payload, 200%Z)
    /\ field "currentDrivingStatus" payload
       = Some (JObj [("safe", JBool true); ("alertLevel", JStr "medium")]).
Proof.
  apply (assess_route_safe_after_failed_detection sample_detector
           [("currentSensorData", bad_speed_reading)] bad_speed_reading
           (error_dict ValueError));
    reflexivity.
Defined.
